(** * one_click.py: environment resolution, requirement selection and the
      stale-code guard of the text-generation-webui installer

    A shallow embedding of [one_click.py].  Strings are Rocq [string]s read as
    ASCII text; dictionaries ([os.environ], [gpu_choice_to_name], the two
    fingerprint snapshots) are [gmap]s; everything the script does to the
    outside world (printing, prompting, running shell commands, touching the
    file system) goes through a small writer/state/exception monad whose log
    records what an observer of the process would see.

    What the embedding takes from outside the script is kept abstract: the
    SHA-256 digest, [os.path.join], the resolution of a path to the file it
    names, and what a shell command returns and changes.  A file is read as
    the text it holds (no newline translation), the interrupt handler is
    left out, and the [__main__] block, which no property below is about, is
    not embedded. *)

From Stdlib Require Import ZArith Ascii String List Bool Lia DecimalString.
From stdpp Require Import base option gmap strings list.

Local Open Scope string_scope.
Local Open Scope list_scope.

(** ** Python string primitives used by the script *)

Module Py.

(** [p in s] on strings: substring containment. *)
Fixpoint str_in (p s : string) : bool :=
  String.prefix p s ||
  match s with
  | EmptyString => false
  | String _ s' => str_in p s'
  end.

(** [s.startswith(p)]. *)
Definition startswith (s p : string) : bool := String.prefix p s.

(** [x in l] for a list (or tuple) of strings. *)
Definition in_list (x : string) (l : list string) : bool :=
  existsb (String.eqb x) l.

Definition upper_char (c : ascii) : ascii :=
  let n := nat_of_ascii c in
  if (97 <=? n)%nat && (n <=? 122)%nat then ascii_of_nat (n - 32) else c.

Definition lower_char (c : ascii) : ascii :=
  let n := nat_of_ascii c in
  if (65 <=? n)%nat && (n <=? 90)%nat then ascii_of_nat (n + 32) else c.

Fixpoint map_chars (f : ascii -> ascii) (s : string) : string :=
  match s with
  | EmptyString => EmptyString
  | String c s' => String (f c) (map_chars f s')
  end.

(** [s.upper()] and [s.lower()]. *)
Definition upper : string -> string := map_chars upper_char.
Definition lower : string -> string := map_chars lower_char.

Fixpoint char_in (c : ascii) (cs : string) : bool :=
  match cs with
  | EmptyString => false
  | String d cs' => Ascii.eqb c d || char_in c cs'
  end.

(** The ASCII characters for which [str.isspace] holds:
    TAB, LF, VT, FF, CR, FS, GS, RS, US and the blank. *)
Definition is_space (c : ascii) : bool :=
  let n := nat_of_ascii c in
  ((9 <=? n)%nat && (n <=? 13)%nat) || ((28 <=? n)%nat && (n <=? 32)%nat).

Fixpoint lstrip_by (drop : ascii -> bool) (s : string) : string :=
  match s with
  | EmptyString => EmptyString
  | String c s' => if drop c then lstrip_by drop s' else s
  end.

Fixpoint rstrip_by (drop : ascii -> bool) (s : string) : string :=
  match s with
  | EmptyString => EmptyString
  | String c s' =>
      match rstrip_by drop s' with
      | EmptyString => if drop c then EmptyString else String c EmptyString
      | r => String c r
      end
  end.

Definition strip_by (drop : ascii -> bool) (s : string) : string :=
  rstrip_by drop (lstrip_by drop s).

(** [s.strip()], [s.strip(chars)], [s.rstrip(chars)]. *)
Definition strip (s : string) : string := strip_by is_space s.
Definition strip_chars (s chars : string) : string :=
  strip_by (fun c => char_in c chars) s.
Definition rstrip_chars (s chars : string) : string :=
  rstrip_by (fun c => char_in c chars) s.

(** [s.replace(old, new)]: the occurrences of [old] are found left to
    right and do not overlap.  [skip] counts the characters of a match
    that are still to be passed over. *)
Fixpoint replace_from (old new : string) (skip : nat) (s : string) : string :=
  match s with
  | EmptyString => EmptyString
  | String c s' =>
      match skip with
      | S k => replace_from old new k s'
      | O =>
          if String.prefix old s
          then new +:+ replace_from old new (String.length old - 1) s'
          else String c (replace_from old new 0 s')
      end
  end.

Fixpoint intersperse (new s : string) : string :=
  match s with
  | EmptyString => new
  | String c s' => new +:+ String c (intersperse new s')
  end.

Definition replace (s old new : string) : string :=
  match old with
  | EmptyString => intersperse new s
  | _ => replace_from old new 0 s
  end.

(** [s.split(sep)] for a separator that is not empty. *)
Fixpoint split_from (sep : string) (skip : nat) (s : string) : list string :=
  match s with
  | EmptyString => [EmptyString]
  | String c s' =>
      match skip with
      | S k => split_from sep k s'
      | O =>
          if String.prefix sep s
          then EmptyString :: split_from sep (String.length sep - 1) s'
          else
            match split_from sep 0 s' with
            | h :: t => String c h :: t
            | [] => [String c EmptyString]
            end
      end
  end.

Definition split (s sep : string) : list string := split_from sep 0 s.

(** The ASCII line boundaries of [str.splitlines]:
    LF, VT, FF, CR, FS, GS, RS (and CR LF as one boundary). *)
Definition is_linebreak (c : ascii) : bool :=
  let n := nat_of_ascii c in
  ((10 <=? n)%nat && (n <=? 13)%nat) || ((28 <=? n)%nat && (n <=? 30)%nat).

Definition snoc (s : string) (c : ascii) : string := s +:+ String c EmptyString.

Fixpoint splitlines_from (cur : string) (after_cr : bool) (s : string)
  : list string :=
  match s with
  | EmptyString => match cur with EmptyString => [] | _ => [cur] end
  | String c s' =>
      if after_cr && Ascii.eqb c "010" then splitlines_from cur false s'
      else if is_linebreak c
           then cur :: splitlines_from EmptyString (Ascii.eqb c "013") s'
           else splitlines_from (snoc cur c) false s'
  end.

Definition splitlines (s : string) : list string :=
  splitlines_from EmptyString false s.

(** [sep.join(l)]. *)
Fixpoint join (sep : string) (l : list string) : string :=
  match l with
  | [] => EmptyString
  | [x] => x
  | x :: l' => x +:+ sep +:+ join sep l'
  end.

Definition nl : string := String "010" EmptyString.

End Py.

(** ** The host, the machine state and the effects of the process *)

(** A double quote, and the decimal rendering of numbers ([str(n)]). *)
Definition dq : string := String "034" EmptyString.

Definition str_of_nat (n : nat) : string :=
  NilZero.string_of_uint (Nat.to_uint n).

Definition str_of_Z (z : Z) : string :=
  NilZero.string_of_int (Z.to_int z).

(** What the file system holds under a path. *)
Inductive node :=
| File (content : string)
| Dir (entries : list string).

(** What [import cpuinfo; cpuinfo.get_cpu_info()] leads to: the module may be
    missing, the call may raise, or it returns a dictionary that has a
    ['flags'] list or lacks that key. *)
Inductive cpuinfo_probe :=
| CpuinfoMissing
| CpuinfoRaises
| CpuinfoInfo (flags : option (list string)).

(** The part of the machine that shell commands may change. *)
Record machine := Machine {
  files : gmap string node;
  cpuinfo : cpuinfo_probe;
  torch_module : option string   (* [torch.__version__] when importable *)
}.

(** The part of the world that stays fixed during a run.  [realpath] is the
    operating system's path resolution (the key under which [files] holds a
    path), [path_join] is [os.path.join] of the platform, and
    [subprocess_run] is what a shell command returns and does to the
    machine. *)
Record host := Host {
  sys_platform : string;
  platform_machine : string;
  environ : gmap string string;
  script_dir : string;
  path_join : string -> string -> string;
  realpath : string -> string;
  getsitepackages : list string;
  subprocess_run : string -> machine -> Z * machine
}.

Inductive exn := EOFError | IndexError | KeyError | OSError | ImportError.

Inductive result (A : Type) :=
| Ok (a : A)
| Exit (code : Z)
| Raise (e : exn).
Arguments Ok {A} a.
Arguments Exit {A} code.
Arguments Raise {A} e.

(** What the process lets the outside see: a [print] call with its text, the
    prompt of an [input] call, a command handed to the shell. *)
Inductive event :=
| Print (text : string)
| Prompt (text : string)
| Run (cmd : string).

Record pstate := PState {
  mach : machine;
  stdin : list string
}.

Definition M (A : Type) : Type := pstate -> result A * pstate * list event.

Definition ret {A} (a : A) : M A := fun st => (Ok a, st, []).

Definition bind {A B} (m : M A) (k : A -> M B) : M B :=
  fun st =>
    match m st with
    | (Ok a, st1, ev1) =>
        let '(r, st2, ev2) := k a st1 in (r, st2, ev1 ++ ev2)
    | (Exit c, st1, ev1) => (Exit c, st1, ev1)
    | (Raise e, st1, ev1) => (Raise e, st1, ev1)
    end.

#[export] Instance M_ret : MRet M := @ret.
#[export] Instance M_bind : MBind M := fun A B k m => bind m k.

Definition sys_exit {A} (code : Z) : M A := fun st => (Exit code, st, []).
Definition raise {A} (e : exn) : M A := fun st => (Raise e, st, []).
Definition emit (e : event) : M unit := fun st => (Ok tt, st, [e]).
Definition print (text : string) : M unit := emit (Print text).
Definition get_machine : M machine := fun st => (Ok (mach st), st, []).
Definition put_machine (m : machine) : M unit :=
  fun st => (Ok tt, PState m (stdin st), []).

(** [input(prompt)]: writes the prompt and reads one line; at the end of the
    input it raises [EOFError]. *)
Definition input (prompt : string) : M string :=
  fun st =>
    match stdin st with
    | [] => (Raise EOFError, st, [Prompt prompt])
    | line :: rest => (Ok line, PState (mach st) rest, [Prompt prompt])
    end.

(** [for x in l: body(x)]. *)
Fixpoint for_each {A} (l : list A) (body : A -> M unit) : M unit :=
  match l with
  | [] => ret tt
  | x :: l' => bind (body x) (fun _ => for_each l' body)
  end.

(** The log of a run. *)
Definition events {A} (r : result A * pstate * list event) : list event := r.2.
Definition outcome {A} (r : result A * pstate * list event) : result A := r.1.1.
Definition final {A} (r : result A * pstate * list event) : pstate := r.1.2.

Definition commands (ev : list event) : list string :=
  omap (fun e => match e with Run c => Some c | _ => None end) ev.

(** ** The script *)

Section Installer.

(** [hashlib.sha256(bytes).hexdigest()], and the host the script runs on. *)
Variable sha256_hexdigest : string -> string.
Variable h : host.

Local Abbreviation nl := Py.nl.

(** [os.path.join(a, b, c, ...)]. *)
Definition joins (a : string) (rest : list string) : string :=
  fold_left (path_join h) rest a.

Definition conda_env_path : string :=
  joins (script_dir h) ["installer_files"; "env"].

Definition cmd_flags_path : string :=
  joins (script_dir h) ["CMD_FLAGS.txt"].

Definition is_linux : bool := Py.startswith (sys_platform h) "linux".
Definition is_windows : bool := Py.startswith (sys_platform h) "win".
Definition is_macos : bool := Py.startswith (sys_platform h) "darwin".
Definition is_x86_64 : bool := String.eqb (platform_machine h) "x86_64".

(** *** File system calls *)

Definition lookup_path (m : machine) (p : string) : option node :=
  files m !! realpath h p.

Definition path_exists (m : machine) (p : string) : bool :=
  match lookup_path m p with Some _ => true | None => false end.

Definition path_isfile (m : machine) (p : string) : bool :=
  match lookup_path m p with Some (File _) => true | _ => false end.

Definition set_node (m : machine) (p : string) (n : node) : machine :=
  Machine (<[realpath h p := n]> (files m)) (cpuinfo m) (torch_module m).

Definition del_node (m : machine) (p : string) : machine :=
  Machine (delete (realpath h p) (files m)) (cpuinfo m) (torch_module m).

(** [open(p).read()] *)
Definition read_file (p : string) : M string :=
  m ← get_machine;
  match lookup_path m p with
  | Some (File content) => mret content
  | _ => raise OSError
  end.

(** [open(p, 'w').write(content)] *)
Definition write_file (p content : string) : M unit :=
  m ← get_machine;
  match lookup_path m p with
  | Some (Dir _) => raise OSError
  | _ => put_machine (set_node m p (File content))
  end.

(** [os.remove(p)] *)
Definition remove_file (p : string) : M unit :=
  m ← get_machine;
  match lookup_path m p with
  | Some (File _) => put_machine (del_node m p)
  | _ => raise OSError
  end.

(** [os.mkdir(p)] *)
Definition mkdir (p : string) : M unit :=
  m ← get_machine;
  match lookup_path m p with
  | Some _ => raise OSError
  | None => put_machine (set_node m p (Dir []))
  end.

(** [os.listdir(p)] *)
Definition listdir (p : string) : M (list string) :=
  m ← get_machine;
  match lookup_path m p with
  | Some (Dir entries) => mret entries
  | _ => raise OSError
  end.

(** [d[k]] *)
Definition dict_get {V} (d : gmap string V) (k : string) : M V :=
  match d !! k with
  | Some v => mret v
  | None => raise KeyError
  end.

(** *** Probes *)

Definition cpu_has_avx2 (m : machine) : bool :=
  match cpuinfo m with
  | CpuinfoInfo (Some flags) =>
      if Py.in_list "avx2" flags then true else false
  | _ => true
  end.

Definition cpu_has_amx (m : machine) : bool :=
  match cpuinfo m with
  | CpuinfoInfo (Some flags) =>
      if Py.in_list "amx" flags then true else false
  | _ => true
  end.

Definition torch_version : M string :=
  let site_packages_path :=
    List.find (fun sitedir => Py.str_in "site-packages" sitedir
                              && Py.str_in conda_env_path sitedir)
              (getsitepackages h) in
  match site_packages_path with
  | Some (String _ _ as p) =>
      content ← read_file (joins p ["torch"; "version.py"]);
      let torch_version_file := Py.splitlines content in
      match List.filter (Py.str_in "__version__") torch_version_file with
      | line :: _ =>
          match Py.split line "__version__ = " with
          | _ :: v :: _ => mret (Py.strip_chars v "'")
          | _ => raise IndexError
          end
      | [] => raise IndexError
      end
  | _ =>
      m ← get_machine;
      match torch_module m with
      | Some torver => mret torver
      | None => raise ImportError
      end
  end.

(** *** Printing, fingerprints and shell commands *)

Definition stars : string :=
  "*******************************************************************".

Definition print_big_message (message : string) : M unit :=
  let message := Py.strip message in
  let lines := Py.split message nl in
  print (nl +:+ nl +:+ stars);;
  for_each lines (fun line =>
    if negb (String.eqb (Py.strip line) EmptyString)
    then print ("* " +:+ line)
    else mret tt);;
  print (stars +:+ nl +:+ nl).

Definition calculate_file_hash (m : machine) (file_path : string) : string :=
  let p := joins (script_dir h) [file_path] in
  match lookup_path m p with
  | Some (File content) => sha256_hexdigest content
  | _ => EmptyString
  end.

(** The [if environment:] block of [run_cmd]: the command with the
    activation of the conda environment in front. *)
Definition in_environment (cmd : string) : string :=
  if is_windows then
    let conda_bat_path :=
      joins (script_dir h)
            ["installer_files"; "conda"; "condabin"; "conda.bat"] in
    dq +:+ conda_bat_path +:+ dq +:+ " activate " +:+ dq
       +:+ conda_env_path +:+ dq +:+ " >nul && " +:+ cmd
  else
    let conda_sh_path :=
      joins (script_dir h)
            ["installer_files"; "conda"; "etc"; "profile.d"; "conda.sh"] in
    ". " +:+ dq +:+ conda_sh_path +:+ dq +:+ " && conda activate " +:+ dq
         +:+ conda_env_path +:+ dq +:+ " && " +:+ cmd.

Definition failed_message (cmd : string) (returncode : Z) : string :=
  "Command '" +:+ cmd +:+ "' failed with exit status code '"
    +:+ str_of_Z returncode +:+ "'." +:+ nl +:+ nl +:+ "Exiting now."
    +:+ nl +:+ "Try running the start/update script again.".

Definition run_cmd (cmd : string) (assert_success environment : bool) : M Z :=
  let cmd := if environment then in_environment cmd else cmd in
  m ← get_machine;
  let result := subprocess_run h cmd m in
  emit (Run cmd);;
  put_machine result.2;;
  if assert_success && negb (result.1 =? 0)%Z
  then print (failed_message cmd result.1);; sys_exit 1
  else mret result.1.

Definition clear_cache : M unit :=
  run_cmd "conda clean -a -y" false true;;
  run_cmd "python -m pip cache purge" false true;;
  mret tt.

(** *** Prompt loops

    [while cond(x): print(msg); x = norm(input(prompt))], run on the lines
    still waiting on standard input. *)
Fixpoint while_input (cond : string -> bool) (msg prompt : string)
    (norm : string -> string) (x : string) (lines : list string)
    {struct lines} : result string * list string * list event :=
  if cond x then
    match lines with
    | [] => (Raise EOFError, [], [Print msg; Prompt prompt])
    | line :: rest =>
        let '(r, rest', ev) :=
          while_input cond msg prompt norm (norm line) rest in
        (r, rest', Print msg :: Prompt prompt :: ev)
    end
  else (Ok x, lines, []).

Definition while_loop (cond : string -> bool) (msg prompt : string)
    (norm : string -> string) (x : string) : M string :=
  fun st =>
    let '(r, rest, ev) := while_input cond msg prompt norm x (stdin st) in
    (r, PState (mach st) rest, ev).

(** *** update_requirements *)

Definition git_creation_cmd : string :=
  "git init -b main && git remote add origin https://github.com/oobabooga/text-generation-webui && git fetch && git symbolic-ref refs/remotes/origin/HEAD refs/remotes/origin/main && git reset --hard origin/main && git branch --set-upstream-to=origin/main".

Definition files_to_check : list string :=
  [ "start_linux.sh"; "start_macos.sh"; "start_windows.bat"; "start_wsl.bat";
    "update_linux.sh"; "update_macos.sh"; "update_windows.bat"; "update_wsl.bat";
    "one_click.py" ].

Definition truthy : list string := ["yes"; "y"; "true"; "1"; "t"; "on"].

(** [{file_name: calculate_file_hash(file_name) for file_name in files_to_check}] *)
Definition hash_snapshot (m : machine) : gmap string string :=
  list_to_map
    ((fun file_name => (file_name, calculate_file_hash m file_name))
       <$> files_to_check).

Definition updated_message (file_name : string) : string :=
  "File '" +:+ file_name
    +:+ "' was updated during 'git pull'. Please run the script again.".

(** The loop that compares the two snapshots. *)
Definition check_hashes (before_pull_hashes after_pull_hashes : gmap string string)
  : M unit :=
  for_each files_to_check (fun file_name =>
    before ← dict_get before_pull_hashes file_name;
    after ← dict_get after_pull_hashes file_name;
    if negb (String.eqb before after)
    then print_big_message (updated_message file_name);; sys_exit 1
    else mret tt).

(** The build flags read off the version string of the installed torch. *)
Definition is_cuda (torver : string) : bool := Py.str_in "+cu" torver.
Definition is_cuda118 (torver : string) : bool := Py.str_in "+cu118" torver.
Definition is_rocm (torver : string) : bool := Py.str_in "+rocm" torver.
Definition is_intel (torver : string) : bool := Py.str_in "+cxx11" torver.
Definition is_cpu (torver : string) : bool := Py.str_in "+cpu" torver.

Definition base_requirements (torver : string) (m : machine) : string :=
  if is_rocm torver then
    "requirements_amd"
      +:+ (if negb (cpu_has_avx2 m) then "_noavx2" else EmptyString) +:+ ".txt"
  else if is_cpu torver || is_intel torver then
    "requirements_cpu_only"
      +:+ (if negb (cpu_has_avx2 m) then "_noavx2" else EmptyString) +:+ ".txt"
  else if is_macos then
    "requirements_apple_"
      +:+ (if is_x86_64 then "intel" else "silicon") +:+ ".txt"
  else
    "requirements"
      +:+ (if negb (cpu_has_avx2 m) then "_noavx2" else EmptyString) +:+ ".txt".

Definition to_cu118 (req : string) : string :=
  Py.replace (Py.replace req "+cu121" "+cu118") "+cu122" "+cu118".

Definition no_flash_attention (req : string) : bool :=
  negb (Py.str_in "jllllll/flash-attention" req).

(** The preparation of the requirements list. *)
Definition prepare_requirements (torver : string) (textgen_requirements : list string)
  : list string :=
  let textgen_requirements :=
    if is_cuda118 torver then map to_cu118 textgen_requirements
    else textgen_requirements in
  let textgen_requirements :=
    if is_windows && is_cuda118 torver
    then List.filter no_flash_attention textgen_requirements
    else textgen_requirements in
  textgen_requirements.

Definition package_name (req : string) : string :=
  let url := Py.replace req "git+" EmptyString in
  Py.rstrip_chars
    (List.hd EmptyString (Py.split (List.last (Py.split url "/") EmptyString) "@"))
    ".git".

Definition enumerate {A} (l : list A) : list (nat * A) :=
  combine (seq 0 (length l)) l.

Definition install_extensions : M unit :=
  print_big_message "Installing extensions requirements.";;
  let skip := ["superbooga"; "superboogav2"; "coqui_tts"] in
  entries ← listdir "extensions";
  m ← get_machine;
  let extensions :=
    List.filter
      (fun foldername =>
         path_isfile m (joins "extensions" [foldername; "requirements.txt"]))
      entries in
  let extensions := List.filter (fun x => negb (Py.in_list x skip)) extensions in
  for_each (enumerate extensions) (fun ix =>
    print (nl +:+ nl +:+ "--- [" +:+ str_of_nat (ix.1 + 1) +:+ "/"
              +:+ str_of_nat (length extensions) +:+ "]: " +:+ ix.2
              +:+ nl +:+ nl);;
    let extension_req_path := joins "extensions" [ix.2; "requirements.txt"] in
    run_cmd ("python -m pip install -r " +:+ extension_req_path +:+ " --upgrade")
            false true;;
    mret tt).

(** Lines 280-355: everything after the comparison of the snapshots. *)
Definition install_requirements (initial_installation : bool) : M unit :=
  let install :=
    match environ h !! "INSTALL_EXTENSIONS" with
    | Some v => Py.in_list (Py.lower v) truthy
    | None => initial_installation
    end in
  (if install then install_extensions
   else if initial_installation then
     print_big_message
       "Will not install extensions due to INSTALL_EXTENSIONS environment variable."
   else mret tt);;
  torver ← torch_version;
  m ← get_machine;
  let requirements_file := base_requirements torver m in
  print_big_message
    ("Installing webui requirements from file: " +:+ requirements_file);;
  print ("TORCH: " +:+ torver +:+ nl);;
  content ← read_file requirements_file;
  let textgen_requirements :=
    prepare_requirements torver (Py.splitlines content) in
  write_file "temp_requirements.txt" (Py.join nl textgen_requirements);;
  let git_requirements :=
    List.filter (fun req => Py.startswith req "git+") textgen_requirements in
  for_each git_requirements (fun req =>
    run_cmd ("python -m pip uninstall -y " +:+ package_name req) false true;;
    print ("Uninstalled " +:+ package_name req));;
  let extension_req_path := joins "extensions" ["openai"; "requirements.txt"] in
  m ← get_machine;
  (if path_exists m extension_req_path
   then run_cmd ("python -m pip install -r " +:+ extension_req_path +:+ " --upgrade")
                false true;; mret tt
   else mret tt);;
  run_cmd "python -m pip install -r temp_requirements.txt --upgrade" true true;;
  remove_file "temp_requirements.txt";;
  no_pytorch_cuda ←
    (if negb (is_cuda torver || is_rocm torver)
     then rc ← run_cmd "conda list -f pytorch-cuda | grep pytorch-cuda" false true;
          mret (rc =? 1)%Z
     else mret false);
  if (no_pytorch_cuda : bool) then clear_cache
  else
    m ← get_machine;
    (if negb (path_exists m "repositories/") then mkdir "repositories"
     else mret tt);;
    clear_cache.

(** Lines 259-262. *)
Definition create_git_directory : M unit :=
  m ← get_machine;
  if negb (path_exists m (joins (script_dir h) [".git"]))
  then run_cmd git_creation_cmd true true;; mret tt
  else mret tt.

(** Lines 270-278: the two snapshots around the pull, and the guard. *)
Definition pull_and_check : M unit :=
  m ← get_machine;
  let before_pull_hashes := hash_snapshot m in
  run_cmd "git pull --autostash" true true;;
  m ← get_machine;
  let after_pull_hashes := hash_snapshot m in
  check_hashes before_pull_hashes after_pull_hashes.

Definition update_requirements (initial_installation : bool) : M unit :=
  create_git_directory;;
  pull_and_check;;
  install_requirements initial_installation.

(** *** install_webui *)

Definition gpu_choice_to_name : gmap string string :=
  {[ "A" := "NVIDIA"; "B" := "AMD"; "C" := "APPLE"; "D" := "INTEL";
     "N" := "NONE" ]}.

Definition invalid_choice : string := "Invalid choice. Please try again.".

(** Lines 170-187: the GPU choice, from the environment or from the menu. *)
Definition ask_gpu_choice : M string :=
  match environ h !! "GPU_CHOICE" with
  | Some v =>
      let choice := Py.upper v in
      print_big_message
        ("Selected GPU choice " +:+ dq +:+ choice +:+ dq
           +:+ " based on the GPU_CHOICE environment variable.");;
      mret choice
  | None =>
      print EmptyString;;
      print "What is your GPU?";;
      print EmptyString;;
      print "A) NVIDIA";;
      print "B) AMD (Linux/MacOS only. Requires ROCm SDK 5.6 on Linux)";;
      print "C) Apple M Series";;
      print "D) Intel Arc (IPEX)";;
      print "N) None (I want to run models in CPU mode)";;
      print EmptyString;;
      line ← input "Input> ";
      while_loop (fun choice => negb (Py.str_in choice "ABCDN"))
                 invalid_choice "Input> " Py.upper (Py.upper line)
  end.

Definition cuda_question : string :=
  nl +:+ "Do you want to use CUDA 11.8 instead of 12.1? Only choose this option if your GPU is very old (Kepler or older)."
     +:+ nl +:+ "For RTX and GTX series GPUs, say " +:+ dq +:+ "N" +:+ dq
     +:+ ". If unsure, say " +:+ dq +:+ "N" +:+ dq +:+ "." +:+ nl.

(** [.upper()], then [.strip] of the two quote characters, then [.strip()]. *)
Definition clean_answer (line : string) : string :=
  Py.strip (Py.strip_chars (Py.upper line) (dq +:+ "'")).

(** Lines 211-219: the CUDA version, from the environment or from a prompt. *)
Definition ask_use_cuda118 : M string :=
  match environ h !! "USE_CUDA118" with
  | Some v => mret (if Py.in_list (Py.lower v) truthy then "Y" else "N")
  | None =>
      print cuda_question;;
      line ← input "Input (Y/N)> ";
      while_loop (fun use_cuda118 => negb (Py.str_in use_cuda118 "YN"))
                 invalid_choice "Input> " clean_answer (clean_answer line)
  end.

Definition pytorch_default : string :=
  "python -m pip install torch==2.1.* torchvision==0.16.* torchaudio==2.1.* ".

Definition pytorch_intel : string :=
  "python -m pip install torch==2.1.0a0 torchvision==0.16.0a0 torchaudio==2.1.0a0 intel-extension-for-pytorch==2.1.10 --extra-index-url https://pytorch-extension.intel.com/release-whl/stable/xpu/us/".

Definition index_url (name : string) : string :=
  "--index-url https://download.pytorch.org/whl/" +:+ name.

(** Lines 206-236: [(use_cuda118, install_pytorch)]. *)
Definition choose_pytorch (selected_gpu : string) : M (string * string) :=
  let install_pytorch := pytorch_default in
  let use_cuda118 := "N" in
  if (is_windows || is_linux) && String.eqb selected_gpu "NVIDIA" then
    use_cuda118 ← ask_use_cuda118;
    if String.eqb use_cuda118 "Y" then
      print "CUDA: 11.8";;
      mret (use_cuda118, install_pytorch +:+ index_url "cu118")
    else
      print "CUDA: 12.1";;
      mret (use_cuda118, install_pytorch +:+ index_url "cu121")
  else if negb is_macos && String.eqb selected_gpu "AMD" then
    if is_linux then mret (use_cuda118, install_pytorch +:+ index_url "rocm5.6")
    else
      print "AMD GPUs are only supported on Linux. Exiting...";;
      sys_exit 1
  else if is_linux && Py.in_list selected_gpu ["APPLE"; "NONE"] then
    mret (use_cuda118, install_pytorch +:+ index_url "cpu")
  else if String.eqb selected_gpu "INTEL" then
    mret (use_cuda118, pytorch_intel)
  else mret (use_cuda118, install_pytorch).

Definition install_git : string := "conda install -y -k ninja git".

Definition pytorch_cmd (install_pytorch : string) : string :=
  install_git +:+ " && " +:+ install_pytorch
    +:+ " && python -m pip install py-cpuinfo==9.0.0".

Definition cuda_runtime_cmd (use_cuda118 : string) : string :=
  "conda install -y -c " +:+ dq +:+ "nvidia/label/"
    +:+ (if String.eqb use_cuda118 "N" then "cuda-12.1.1" else "cuda-11.8.0")
    +:+ dq +:+ " cuda-runtime".

(** Lines 199-255: the installation once [selected_gpu] is known. *)
Definition install_for (selected_gpu : string) : M unit :=
  (if String.eqb selected_gpu "NONE" then
     content ← read_file cmd_flags_path;
     if negb (Py.str_in "--cpu" content) then
       print_big_message "Adding the --cpu flag to CMD_FLAGS.txt.";;
       write_file cmd_flags_path (content +:+ nl +:+ "--cpu")
     else mret tt
   else mret tt);;
  plan ← choose_pytorch selected_gpu;
  print_big_message "Installing PyTorch.";;
  run_cmd (pytorch_cmd plan.2) true true;;
  (if String.eqb selected_gpu "NVIDIA" then
     print_big_message "Installing the CUDA runtime libraries.";;
     run_cmd (cuda_runtime_cmd plan.1) true true;;
     mret tt
   else mret tt);;
  (if String.eqb selected_gpu "INTEL" then
     print_big_message "Installing Intel oneAPI runtime libraries.";;
     run_cmd "conda install -y -c intel dpcpp-cpp-rt=2024.0 mkl-dpcpp=2024.0"
             false false;;
     run_cmd "conda install -y libuv" false false;;
     mret tt
   else mret tt);;
  update_requirements true.

Definition install_webui : M unit :=
  choice ← ask_gpu_choice;
  selected_gpu ← dict_get gpu_choice_to_name "A";
  install_for selected_gpu.

End Installer.

Arguments print_big_message message : simpl never.

(** ** Notions used to state the properties *)

(** The host with another environment. *)
Definition set_environ (h : host) (env : gmap string string) : host :=
  Host (sys_platform h) (platform_machine h) env (script_dir h)
       (path_join h) (realpath h) (getsitepackages h) (subprocess_run h).

(** The texts [print_big_message] prints, in order. *)
Definition big_message_text (message : string) : list string :=
  [Py.nl +:+ Py.nl +:+ stars]
    ++ map (fun line => "* " +:+ line)
           (List.filter (fun line => negb (String.eqb (Py.strip line) EmptyString))
                        (Py.split (Py.strip message) Py.nl))
    ++ [stars +:+ Py.nl +:+ Py.nl].

(** The first tracked file, in the order of [files_to_check], whose
    fingerprint on machine [m1] differs from its fingerprint on [m2]. *)
Definition first_changed (sha : string -> string) (h : host) (m1 m2 : machine)
  : option string :=
  List.find
    (fun file_name =>
       negb (String.eqb (calculate_file_hash sha h m1 file_name)
                        (calculate_file_hash sha h m2 file_name)))
    files_to_check.

(** The requirements file as the documentation tabulates it: ROCm first, then
    CPU-only or Intel, then macOS (by architecture), then the default; the
    [_noavx2] variants when AVX2 is not detected. *)
Definition requirements_table (rocm cpu_or_intel macos x86_64 avx2 : bool) : string :=
  match rocm, cpu_or_intel, macos with
  | true, _, _ =>
      if avx2 then "requirements_amd.txt" else "requirements_amd_noavx2.txt"
  | false, true, _ =>
      if avx2 then "requirements_cpu_only.txt"
      else "requirements_cpu_only_noavx2.txt"
  | false, false, true =>
      if x86_64 then "requirements_apple_intel.txt"
      else "requirements_apple_silicon.txt"
  | false, false, false =>
      if avx2 then "requirements.txt" else "requirements_noavx2.txt"
  end.

(** The number of ['+'] characters of a string.  A version string in the
    format of PEP 440 has at most one: the separator in front of the local
    version label. *)
Fixpoint plus_count (s : string) : nat :=
  match s with
  | EmptyString => 0
  | String c s' => (if Ascii.eqb c "+" then 1 else 0) + plus_count s'
  end.

Definition well_formed_version (torver : string) : Prop := plus_count torver <= 1.


(** How a GPU choice reaches [install_webui] on a host [h] with machine [m]
    and pending input [rest]: through [GPU_CHOICE], or as a line typed at the
    menu that the prompt accepts. *)
Inductive supplies_choice (h : host) (m : machine) (rest : list string)
  : host -> pstate -> Prop :=
| by_environ (c : string) :
    supplies_choice h m rest
      (set_environ h (<["GPU_CHOICE" := c]> (environ h))) (PState m rest)
| by_menu (line : string) :
    Py.str_in (Py.upper line) "ABCDN" = true ->
    supplies_choice h m rest
      (set_environ h (delete "GPU_CHOICE" (environ h))) (PState m (line :: rest)).

(** The guard read as naming every changed file: whenever the pull succeeds
    and a tracked file has another fingerprint afterwards, the run exits with
    status 1 and prints the message for that very file. *)
Definition names_every_changed_file (sha : string -> string) (h : host)
    (b : bool) (st : pstate) : Prop :=
  forall st1 ev1 m2 f,
    create_git_directory h st = (Ok tt, st1, ev1) ->
    subprocess_run h (in_environment h "git pull --autostash") (mach st1)
      = (0%Z, m2) ->
    In f files_to_check ->
    calculate_file_hash sha h (mach st1) f <> calculate_file_hash sha h m2 f ->
    outcome (update_requirements sha h b st) = Exit 1
    /\ In (Print ("* " +:+ updated_message f))
          (events (update_requirements sha h b st)).

(** ** Sample hosts *)

Module Sample.

Fixpoint ends_with_slash (s : string) : bool :=
  match s with
  | EmptyString => false
  | String c EmptyString => Ascii.eqb c "/"
  | String _ s' => ends_with_slash s'
  end.

(** [posixpath.join] of two components. *)
Definition posix_join (a b : string) : string :=
  if Py.startswith b "/" then b
  else match a with
       | EmptyString => b
       | _ => if ends_with_slash a then a +:+ b else a +:+ "/" +:+ b
       end.

(** The SHA-256 digest of the empty byte string; the sample files whose
    fingerprints are taken are all empty. *)
Definition sha256_of_empty (content : string) : string :=
  "e3b0c44298fc1c149afbf4c8996fb92427ae41e4649b934ca495991b7852b855".

(** A shell in which every command succeeds and changes nothing. *)
Definition quiet_shell (cmd : string) (m : machine) : Z * machine := (0%Z, m).

(** A shell in which [git pull] brings new [start_linux.sh] and
    [one_click.py]. *)
Definition pulling_shell (cmd : string) (m : machine) : Z * machine :=
  if Py.str_in "git pull" cmd then
    (0%Z,
     Machine (<["/opt/webui/start_linux.sh" := File EmptyString]>
                (<["/opt/webui/one_click.py" := File EmptyString]> (files m)))
             (cpuinfo m) (torch_module m))
  else (0%Z, m).

Definition unix_host (platform : string) (env : gmap string string)
    (shell : string -> machine -> Z * machine) : host :=
  Host platform "x86_64" env "/opt/webui" posix_join id [] shell.

Definition linux : host := unix_host "linux" ∅ quiet_shell.
Definition macos : host := unix_host "darwin" ∅ quiet_shell.
Definition backslash : string := String "092" EmptyString.

(** [ntpath.join] of a directory without trailing separator and a
    relative component. *)
Definition nt_join (a b : string) : string := a +:+ backslash +:+ b.

Definition windows : host :=
  Host "win32" "AMD64" ∅ ("C:" +:+ backslash +:+ "webui") nt_join id []
       quiet_shell.
Definition linux_pulling : host := unix_host "linux" ∅ pulling_shell.

(** A checkout with a requirements file for each build, no extensions. *)
Definition checkout : gmap string node :=
  {[ "/opt/webui/.git" := Dir [];
     "extensions" := Dir [];
     "requirements.txt" := File "accelerate==0.25.*";
     "requirements_apple_intel.txt" := File "accelerate==0.25.*";
     "requirements_apple_silicon.txt" := File "accelerate==0.25.*" ]}.

Definition cuda_machine : machine :=
  Machine checkout CpuinfoMissing (Some "2.1.2+cu121").

Definition plain_machine : machine :=
  Machine checkout CpuinfoMissing (Some "2.1.2").

End Sample.

(** ** The rest of the script *)

Section Startup.

Variable h : host.

(** Lines 109-119. *)
Definition check_env : M unit :=
  returncode ← run_cmd h "conda" false true;
  let conda_exist := (returncode =? 0)%Z in
  (if negb conda_exist
   then print "Conda is not installed. Exiting...";; sys_exit 1
   else mret tt);;
  conda_default_env ← dict_get (environ h) "CONDA_DEFAULT_ENV";
  if String.eqb conda_default_env "base"
  then print "Create an environment for this project and activate it. Exiting...";;
       sys_exit 1
  else mret tt.

(** [for line in f]: the lines of a text, each with its line feed. *)
Fixpoint readlines_from (cur s : string) : list string :=
  match s with
  | EmptyString => match cur with EmptyString => [] | _ => [cur] end
  | String c s' =>
      if Ascii.eqb c "010" then Py.snoc cur c :: readlines_from EmptyString s'
      else readlines_from (Py.snoc cur c) s'
  end.

Definition readlines (s : string) : list string := readlines_from EmptyString s.

Definition bslash : string := String "092" EmptyString.

(** [line.strip().rstrip('\\').strip()] *)
Definition flag_of_line (line : string) : string :=
  Py.strip (Py.rstrip_chars (Py.strip line) bslash).

Definition truth (s : string) : bool :=
  match s with EmptyString => false | _ => true end.

(** Line 24: the generator over the lines of [CMD_FLAGS.txt], joined. *)
Definition cmd_flags_of_lines (lines : list string) : string :=
  Py.join " "
    (map flag_of_line
       (List.filter
          (fun line => truth (flag_of_line line)
                       && negb (Py.startswith (Py.strip line) "#"))
          lines)).

(** Lines 21-26. *)
Definition CMD_FLAGS : M string :=
  m ← get_machine;
  if path_exists h m (cmd_flags_path h)
  then content ← read_file h (cmd_flags_path h);
       mret (cmd_flags_of_lines (readlines content))
  else mret EmptyString.

(** Line 28, with [argv] for [sys.argv]. *)
Definition flags (argv : list string) (cmd_flags : string) : string :=
  Py.join " " (List.filter (fun flag => negb (String.eqb flag "--update")) (tl argv))
    +:+ " " +:+ cmd_flags.

(** Lines 358-360. *)
Definition launch_webui (flags : string) : M unit :=
  print ("python server.py " +:+ flags);;
  run_cmd h ("python server.py " +:+ flags) false true;;
  mret tt.

End Startup.

(** The lines read from standard input and the messages of a prompt loop. *)
Definition prompts (ev : list event) : nat :=
  length (List.filter (fun e => match e with Prompt _ => true | _ => false end) ev).

Definition has_linebreak (s : string) : bool :=
  existsb Py.is_linebreak (list_ascii_of_string s).

(** The events of [n] rounds of a prompt loop. *)
Fixpoint rounds (msg prompt : string) (n : nat) : list event :=
  match n with
  | 0 => []
  | S n' => Print msg :: Prompt prompt :: rounds msg prompt n'
  end.

(** What the menu prints (lines 174-182). *)
Definition gpu_menu : list event :=
  [ Print EmptyString; Print "What is your GPU?"; Print EmptyString;
    Print "A) NVIDIA";
    Print "B) AMD (Linux/MacOS only. Requires ROCm SDK 5.6 on Linux)";
    Print "C) Apple M Series"; Print "D) Intel Arc (IPEX)";
    Print "N) None (I want to run models in CPU mode)"; Print EmptyString ].

Definition gpu_accepts (line : string) : bool :=
  Py.str_in (Py.upper line) "ABCDN".


Definition extension_cmd (h : host) (extension : string) : string :=
  in_environment h
    ("python -m pip install -r "
       +:+ joins h "extensions" [extension; "requirements.txt"] +:+ " --upgrade").

Definition chosen_extensions (h : host) (m : machine) (entries : list string)
  : list string :=
  List.filter
    (fun x => negb (Py.in_list x ["superbooga"; "superboogav2"; "coqui_tts"]))
    (List.filter
       (fun foldername =>
          path_isfile h m (joins h "extensions" [foldername; "requirements.txt"]))
       entries).

Definition extensions_machine : machine :=
  Machine
    (<["extensions" := Dir ["openai"; "superbooga"; "docs"]]>
       (<["extensions/openai/requirements.txt" := File "flask"]>
          (<["extensions/superbooga/requirements.txt" := File "chromadb"]> ∅)))
    CpuinfoMissing None.

(** The last character of a string. *)
Fixpoint last_char (s : string) : option ascii :=
  match s with
  | EmptyString => None
  | String c EmptyString => Some c
  | String _ s' => last_char s'
  end.

(** A shell in which the commands that hold [word] return 1 and all others
    return 0; none changes the machine. *)
Definition refusing_shell (word : string) (cmd : string) (m : machine) : Z * machine :=
  if Py.str_in word cmd then (1%Z, m) else (0%Z, m).

Definition linux_refusing (word : string) : host :=
  Sample.unix_host "linux" ∅ (refusing_shell word).

Definition in_conda_env (h : host) (sitedir : string) : bool :=
  Py.str_in "site-packages" sitedir && Py.str_in (conda_env_path h) sitedir.

(** A Linux host whose interpreter lives in the conda environment of the
    installer, and a machine with the version file of torch. *)
Definition conda_linux : host :=
  Host "linux" "x86_64" ∅ "/opt/webui" Sample.posix_join id
       [ "/usr/lib/python3/dist-packages";
         "/opt/webui/installer_files/env/lib/python3.11/site-packages" ]
       Sample.quiet_shell.

Definition version_py : string :=
  "__version__ = '2.1.2+cu121'" +:+ Py.nl +:+ "debug = False" +:+ Py.nl.

Definition torch_machine : machine :=
  Machine
    {[ "/opt/webui/installer_files/env/lib/python3.11/site-packages/torch/version.py"
       := File version_py ]}
    CpuinfoMissing None.


(** A computation that leaves standard input alone: it reads no line and
    writes no prompt.  (A shell command is a function of the machine only:
    the programs it starts are taken not to read the script's input.) *)
Definition silent {A} (m : M A) : Prop :=
  forall st, stdin (final (m st)) = stdin st /\ prompts (events (m st)) = 0.

(** The installation of the project requirements (line 344) and the two
    commands of [clear_cache]. *)
Definition requirements_cmd (h : host) : string :=
  in_environment h "python -m pip install -r temp_requirements.txt --upgrade".

Definition cache_purge (h : host) : list event :=
  [ Run (in_environment h "conda clean -a -y");
    Run (in_environment h "python -m pip cache purge") ].

(** * Properties *)

(** ** The string primitives on sample inputs *)

Example str_in_token : Py.str_in "+cu" "2.1.0+cu118" = true.
Proof. reflexivity. Qed.

Example str_in_cpu_build : Py.str_in "+cu" "2.1.0+cpu" = false.
Proof. reflexivity. Qed.

Example str_in_empty : Py.str_in EmptyString "ABCDN" = true.
Proof. reflexivity. Qed.

Example replace_leftmost : Py.replace "aaa" "aa" "b" = "ba".
Proof. reflexivity. Qed.

Example split_keeps_empty_fields :
  Py.split "a//b" "/" = ["a"; EmptyString; "b"].
Proof. reflexivity. Qed.

Example splitlines_crlf :
  Py.splitlines ("a" +:+ String "013" Py.nl +:+ Py.nl +:+ "b" +:+ Py.nl)
  = ["a"; EmptyString; "b"].
Proof. reflexivity. Qed.

Example rstrip_is_by_character : Py.rstrip_chars "digit.git" ".git" = "d".
Proof. reflexivity. Qed.

Example package_name_of_url :
  package_name "git+https://github.com/oobabooga/torch-grammar.git@main"
  = "torch-grammar".
Proof. reflexivity. Qed.

Example clean_answer_strips_outer_quotes_first :
  clean_answer (dq +:+ "y" +:+ dq +:+ " ") = "Y" +:+ dq.
Proof. reflexivity. Qed.

(** ** Running computations *)

Lemma bind_run {A B} (m : M A) (k : A -> M B) (st : pstate) :
  (m ≫= k) st =
    match m st with
    | (Ok a, st1, ev1) => let '(r, st2, ev2) := k a st1 in (r, st2, ev1 ++ ev2)
    | (Exit c, st1, ev1) => (Exit c, st1, ev1)
    | (Raise e, st1, ev1) => (Raise e, st1, ev1)
    end.
Proof. reflexivity. Qed.

Lemma bind_ok {A B} (m : M A) (k : A -> M B) st a st1 ev1 :
  m st = (Ok a, st1, ev1) ->
  (m ≫= k) st = (let '(r, st2, ev2) := k a st1 in (r, st2, ev1 ++ ev2)).
Proof. intros H. rewrite bind_run, H. reflexivity. Qed.

Lemma commands_app (ev1 ev2 : list event) :
  commands (ev1 ++ ev2) = commands ev1 ++ commands ev2.
Proof. unfold commands. apply omap_app. Qed.

Lemma commands_prints (texts : list string) : commands (Print <$> texts) = [].
Proof. induction texts as [|t texts IH]; [reflexivity | exact IH]. Qed.

Lemma for_each_print (keep : string -> bool) (f : string -> string)
    (lines : list string) (st : pstate) :
  for_each lines (fun line => if keep line then print (f line) else mret tt) st
  = (Ok tt, st, Print <$> map f (List.filter keep lines)).
Proof.
  induction lines as [|line lines IH]; [reflexivity|].
  cbn [for_each List.filter]. unfold bind. destruct (keep line); cbn.
  - rewrite IH. reflexivity.
  - rewrite IH. reflexivity.
Qed.

Lemma print_big_message_run (message : string) (st : pstate) :
  print_big_message message st = (Ok tt, st, Print <$> big_message_text message).
Proof.
  unfold print_big_message, big_message_text.
  rewrite bind_run. cbn [print emit].
  rewrite bind_run.
  rewrite (for_each_print
             (fun line => negb (String.eqb (Py.strip line) EmptyString))
             (fun line => "* " +:+ line)).
  cbn. rewrite fmap_app. reflexivity.
Qed.

(** ** The stale-code guard *)

Lemma files_to_check_NoDup : NoDup files_to_check.
Proof. apply (bool_decide_unpack _). vm_compute. reflexivity. Qed.

Lemma hash_snapshot_lookup sha h m (f : string) :
  f ∈ files_to_check ->
  hash_snapshot sha h m !! f = Some (calculate_file_hash sha h m f).
Proof.
  intros Hf. unfold hash_snapshot.
  apply elem_of_list_to_map_1.
  - rewrite <- list_fmap_compose.
    replace (fst ∘ _) with (@id string) by reflexivity.
    rewrite list_fmap_id. apply files_to_check_NoDup.
  - apply list_elem_of_fmap. exists f. split; [reflexivity | exact Hf].
Qed.

Lemma check_files_run sha h m1 m2 (l : list string) (st : pstate) :
  (forall f, f ∈ l -> f ∈ files_to_check) ->
  for_each l (fun file_name =>
      before ← dict_get (hash_snapshot sha h m1) file_name;
      after ← dict_get (hash_snapshot sha h m2) file_name;
      if negb (String.eqb before after)
      then print_big_message (updated_message file_name);; sys_exit 1
      else mret tt) st
  = match List.find
            (fun file_name =>
               negb (String.eqb (calculate_file_hash sha h m1 file_name)
                                (calculate_file_hash sha h m2 file_name))) l with
    | Some f => (Exit 1, st, Print <$> big_message_text (updated_message f))
    | None => (Ok tt, st, [])
    end.
Proof.
  match goal with |- _ -> for_each _ ?b _ = _ => set (body := b) end.
  induction l as [|f l IH]; intros Hl; [reflexivity|].
  cbn [for_each List.find].
  assert (Hf : f ∈ files_to_check) by (apply Hl; left).
  unfold bind at 1. unfold body at 1.
  rewrite bind_run. unfold dict_get at 1.
  rewrite (hash_snapshot_lookup sha h m1 f Hf). cbv beta iota delta [mret M_ret ret].
  rewrite bind_run. unfold dict_get at 1.
  rewrite (hash_snapshot_lookup sha h m2 f Hf). cbv beta iota delta [mret M_ret ret].
  destruct (negb (String.eqb _ _)).
  - rewrite bind_run, print_big_message_run. cbn. rewrite app_nil_r. reflexivity.
  - rewrite IH; [| intros g Hg; apply Hl; right; exact Hg].
    destruct (List.find _ l); reflexivity.
Qed.

Lemma check_hashes_run sha h m1 m2 (st : pstate) :
  check_hashes (hash_snapshot sha h m1) (hash_snapshot sha h m2) st
  = match first_changed sha h m1 m2 with
    | Some f => (Exit 1, st, Print <$> big_message_text (updated_message f))
    | None => (Ok tt, st, [])
    end.
Proof. apply check_files_run. auto. Qed.

Lemma run_cmd_run h (cmd : string) (assert_success environment : bool) (st : pstate) :
  run_cmd h cmd assert_success environment st =
    let c := if environment then in_environment h cmd else cmd in
    let r := subprocess_run h c (mach st) in
    if assert_success && negb (r.1 =? 0)%Z
    then (Exit 1, PState r.2 (stdin st), [Run c; Print (failed_message c r.1)])
    else (Ok r.1, PState r.2 (stdin st), [Run c]).
Proof.
  unfold run_cmd. cbv zeta.
  destruct (subprocess_run h _ (mach st)) as [rc m'] eqn:E.
  rewrite bind_run. cbn. rewrite E. cbn.
  destruct (assert_success && negb (rc =? 0)%Z); reflexivity.
Qed.

Lemma create_git_directory_ok h st st1 ev1 :
  create_git_directory h st = (Ok tt, st1, ev1) ->
  stdin st1 = stdin st /\
  (ev1 = [] \/ ev1 = [Run (in_environment h git_creation_cmd)]).
Proof.
  unfold create_git_directory. rewrite bind_run. cbn [get_machine].
  destruct (negb _).
  - rewrite bind_run, run_cmd_run. cbv zeta.
    destruct (true && negb _); cbn; intros [= <- <-]; auto.
  - cbn. intros [= <- <-]; auto.
Qed.

Lemma banner_of_tracked (f : string) :
  In f files_to_check ->
  big_message_text (updated_message f)
  = [Py.nl +:+ Py.nl +:+ stars; "* " +:+ updated_message f; stars +:+ Py.nl +:+ Py.nl].
Proof.
  intros Hf. repeat (destruct Hf as [<- | Hf]; [vm_compute; reflexivity|]).
  destruct Hf.
Qed.

(** C1, as amended: when the git directory is in place and the pull has
    succeeded, and [f] is the first file of [files_to_check] whose fingerprint
    after the pull differs from the one before, [update_requirements] exits
    with status 1, the last thing it prints is the message that names [f], and
    the only commands of the whole run are the creation of the git directory
    and the pull: no installation command is issued. *)
Theorem update_stops_at_first_changed_file sha h b st st1 ev1 m2 f :
  create_git_directory h st = (Ok tt, st1, ev1) ->
  subprocess_run h (in_environment h "git pull --autostash") (mach st1) = (0%Z, m2) ->
  first_changed sha h (mach st1) m2 = Some f ->
  update_requirements sha h b st
    = (Exit 1, PState m2 (stdin st1),
       ev1 ++ Run (in_environment h "git pull --autostash")
           :: (Print <$> big_message_text (updated_message f)))
  /\ In (Print ("* " +:+ updated_message f))
        (events (update_requirements sha h b st))
  /\ (forall c, In c (commands (events (update_requirements sha h b st))) ->
        c = in_environment h git_creation_cmd
        \/ c = in_environment h "git pull --autostash").
Proof.
  intros Hgit Hpull Hfirst.
  assert (Hrun : update_requirements sha h b st
    = (Exit 1, PState m2 (stdin st1),
       ev1 ++ Run (in_environment h "git pull --autostash")
           :: (Print <$> big_message_text (updated_message f)))).
  { unfold update_requirements. rewrite (bind_ok _ _ _ _ _ _ Hgit).
    rewrite bind_run. unfold pull_and_check.
    rewrite bind_run. cbn [get_machine].
    rewrite bind_run, run_cmd_run. cbv zeta. rewrite Hpull. cbn [fst snd andb negb Z.eqb].
    rewrite bind_run. cbn [get_machine mach].
    rewrite check_hashes_run, Hfirst. reflexivity. }
  rewrite Hrun. unfold events. cbn [snd].
  assert (Hf : In f files_to_check).
  { apply (List.find_some _ _ Hfirst). }
  rewrite (banner_of_tracked f Hf).
  split; [reflexivity|]. split.
  - apply in_or_app. right. cbn. auto.
  - intros c. rewrite commands_app. intros Hc. apply in_app_or in Hc.
    destruct (create_git_directory_ok _ _ _ _ Hgit) as [_ [-> | ->]];
      cbn in Hc; intuition auto.
Qed.

(** C1, witness: a pull that brings a new [start_linux.sh] and a new
    [one_click.py] stops the update at [start_linux.sh]. *)
Lemma update_stops_at_first_changed_file_witness :
  update_requirements Sample.sha256_of_empty Sample.linux_pulling false
    (PState Sample.cuda_machine [])
  = (Exit 1,
     PState (Sample.pulling_shell
               (in_environment Sample.linux_pulling "git pull --autostash")
               Sample.cuda_machine).2 [],
     [] ++ Run (in_environment Sample.linux_pulling "git pull --autostash")
        :: (Print <$> big_message_text (updated_message "start_linux.sh")))
  /\ In (Print ("* " +:+ updated_message "start_linux.sh"))
        (events (update_requirements Sample.sha256_of_empty Sample.linux_pulling
                   false (PState Sample.cuda_machine [])))
  /\ (forall c,
        In c (commands (events (update_requirements Sample.sha256_of_empty
                                  Sample.linux_pulling false
                                  (PState Sample.cuda_machine [])))) ->
        c = in_environment Sample.linux_pulling git_creation_cmd
        \/ c = in_environment Sample.linux_pulling "git pull --autostash").
Proof.
  apply (update_stops_at_first_changed_file Sample.sha256_of_empty
           Sample.linux_pulling false (PState Sample.cuda_machine [])
           (PState Sample.cuda_machine []) []);
    vm_compute; reflexivity.
Defined.

(** C1, counterexample: a pull changes [start_linux.sh] and [one_click.py];
    the fingerprint of [one_click.py] differs, yet no message names it, since
    the run has already exited at [start_linux.sh]. *)
Lemma second_changed_file_is_not_named :
  ~ names_every_changed_file Sample.sha256_of_empty Sample.linux_pulling false
      (PState Sample.cuda_machine []).
Proof.
  intros H.
  destruct (H (PState Sample.cuda_machine []) []
              (Sample.pulling_shell
                 (in_environment Sample.linux_pulling "git pull --autostash")
                 Sample.cuda_machine).2
              "one_click.py") as [_ Hin].
  - vm_compute. reflexivity.
  - vm_compute. reflexivity.
  - vm_compute. tauto.
  - vm_compute. discriminate.
  - vm_compute in Hin. intuition discriminate.
Qed.

Lemma tracked_message_inj (f g : string) :
  In f files_to_check -> In g files_to_check ->
  In (Print ("* " +:+ updated_message f))
     (Print <$> big_message_text (updated_message g)) ->
  f = g.
Proof.
  intros Hf Hg. rewrite (banner_of_tracked g Hg).
  repeat (destruct Hf as [<- | Hf]; [|]); try destruct Hf;
  repeat (destruct Hg as [<- | Hg]; [|]); try destruct Hg;
  cbn; intros H; try reflexivity; exfalso; intuition discriminate.
Qed.

(** C10: a tracked file that is no regular file under the script directory
    before and after the pull has the empty fingerprint in both snapshots, the
    two dictionary entries are equal, it is never the file at which the guard
    stops, and the comparison never prints the message that names it. *)
Theorem absent_file_never_trips_guard sha h m1 m2 (f : string) (st : pstate) :
  In f files_to_check ->
  path_isfile h m1 (joins h (script_dir h) [f]) = false ->
  path_isfile h m2 (joins h (script_dir h) [f]) = false ->
  calculate_file_hash sha h m1 f = EmptyString
  /\ calculate_file_hash sha h m2 f = EmptyString
  /\ hash_snapshot sha h m1 !! f = hash_snapshot sha h m2 !! f
  /\ first_changed sha h m1 m2 <> Some f
  /\ ~ In (Print ("* " +:+ updated_message f))
          (events (check_hashes (hash_snapshot sha h m1) (hash_snapshot sha h m2) st)).
Proof.
  intros Hf H1 H2.
  assert (E1 : calculate_file_hash sha h m1 f = EmptyString).
  { unfold calculate_file_hash, path_isfile in *.
    destruct (lookup_path h m1 _) as [[c|es]|]; [discriminate | reflexivity..]. }
  assert (E2 : calculate_file_hash sha h m2 f = EmptyString).
  { unfold calculate_file_hash, path_isfile in *.
    destruct (lookup_path h m2 _) as [[c|es]|]; [discriminate | reflexivity..]. }
  assert (Hne : first_changed sha h m1 m2 <> Some f).
  { intros Hfirst. apply List.find_some in Hfirst as [_ Hdiff].
    rewrite E1, E2 in Hdiff. discriminate. }
  repeat split; try assumption.
  - rewrite !hash_snapshot_lookup by (apply list_elem_of_In; exact Hf).
    rewrite E1, E2. reflexivity.
  - rewrite check_hashes_run.
    destruct (first_changed sha h m1 m2) as [g|] eqn:Hfirst; cbn; [|tauto].
    intros Hin. apply Hne. f_equal. symmetry.
    apply tracked_message_inj; [exact Hf | | exact Hin].
    apply (List.find_some _ _ Hfirst).
Qed.

(** C10, witness: [start_wsl.bat] is absent before and after the sample
    pull. *)
Lemma absent_file_never_trips_guard_witness :
  calculate_file_hash Sample.sha256_of_empty Sample.linux_pulling
    Sample.cuda_machine "start_wsl.bat" = EmptyString
  /\ first_changed Sample.sha256_of_empty Sample.linux_pulling Sample.cuda_machine
       (Sample.pulling_shell "git pull" Sample.cuda_machine).2
     <> Some "start_wsl.bat".
Proof.
  destruct (absent_file_never_trips_guard Sample.sha256_of_empty
              Sample.linux_pulling Sample.cuda_machine
              (Sample.pulling_shell "git pull" Sample.cuda_machine).2
              "start_wsl.bat" (PState Sample.cuda_machine []))
    as (H1 & _ & _ & H4 & _).
  - vm_compute. tauto.
  - vm_compute. reflexivity.
  - vm_compute. reflexivity.
  - split; [exact H1 | exact H4].
Defined.

(** ** The GPU choice *)

Lemma install_requirements_environ h env1 env2 b :
  env1 !! "INSTALL_EXTENSIONS" = env2 !! "INSTALL_EXTENSIONS" ->
  install_requirements (set_environ h env1) b
  = install_requirements (set_environ h env2) b.
Proof.
  intros H2. unfold install_requirements. cbn [environ set_environ].
  rewrite H2. reflexivity.
Qed.

Lemma update_requirements_environ sha h env1 env2 b :
  env1 !! "INSTALL_EXTENSIONS" = env2 !! "INSTALL_EXTENSIONS" ->
  update_requirements sha (set_environ h env1) b
  = update_requirements sha (set_environ h env2) b.
Proof.
  intros H2. unfold update_requirements.
  rewrite (install_requirements_environ h env1 env2 b H2). reflexivity.
Qed.

Lemma choose_pytorch_environ h env1 env2 g :
  env1 !! "USE_CUDA118" = env2 !! "USE_CUDA118" ->
  choose_pytorch (set_environ h env1) g = choose_pytorch (set_environ h env2) g.
Proof.
  intros H1. unfold choose_pytorch, ask_use_cuda118. cbn [environ set_environ].
  rewrite H1. reflexivity.
Qed.

Lemma install_for_environ sha h env1 env2 g :
  env1 !! "USE_CUDA118" = env2 !! "USE_CUDA118" ->
  env1 !! "INSTALL_EXTENSIONS" = env2 !! "INSTALL_EXTENSIONS" ->
  install_for sha (set_environ h env1) g = install_for sha (set_environ h env2) g.
Proof.
  intros H1 H2. unfold install_for.
  rewrite (choose_pytorch_environ h env1 env2 g H1).
  rewrite (update_requirements_environ sha h env1 env2 true H2).
  reflexivity.
Qed.

Lemma selected_gpu_is_nvidia : gpu_choice_to_name !! "A" = Some "NVIDIA".
Proof. vm_compute. reflexivity. Qed.

Lemma install_webui_run sha h (st : pstate) :
  install_webui sha h st
  = (ask_gpu_choice h ≫= fun _ => install_for sha h "NVIDIA") st.
Proof.
  unfold install_webui. rewrite !bind_run.
  destruct (ask_gpu_choice h st) as [[[choice|c|e] st1] ev1]; try reflexivity.
  rewrite bind_run. unfold dict_get. rewrite selected_gpu_is_nvidia.
  cbv beta iota delta [mret M_ret ret].
  destruct (install_for sha h "NVIDIA" st1) as [[r st2] ev2]. reflexivity.
Qed.

Lemma ask_gpu_choice_environ h (c : string) (st : pstate) :
  environ h !! "GPU_CHOICE" = Some c ->
  exists texts,
    ask_gpu_choice h st = (Ok (Py.upper c), st, Print <$> texts).
Proof.
  intros Hc. unfold ask_gpu_choice. rewrite Hc.
  rewrite bind_run, print_big_message_run.
  cbv beta iota delta [mret M_ret ret].
  eexists. rewrite app_nil_r. reflexivity.
Qed.

Lemma ask_gpu_choice_menu h (line : string) (rest : list string) (m : machine) :
  environ h !! "GPU_CHOICE" = None ->
  Py.str_in (Py.upper line) "ABCDN" = true ->
  exists ev,
    ask_gpu_choice h (PState m (line :: rest)) = (Ok (Py.upper line), PState m rest, ev)
    /\ commands ev = [].
Proof.
  intros Hc Hok. unfold ask_gpu_choice. rewrite Hc.
  repeat (rewrite bind_run; cbv beta iota delta [print emit input stdin mach]).
  unfold while_loop. cbv beta iota delta [stdin mach].
  assert (Hloop : while_input (fun choice => negb (Py.str_in choice "ABCDN"))
                    invalid_choice "Input> " Py.upper (Py.upper line) rest
                  = (Ok (Py.upper line), rest, [])).
  { destruct rest; cbn [while_input]; rewrite Hok; reflexivity. }
  rewrite Hloop. eexists. split; [reflexivity | reflexivity].
Qed.

Lemma install_webui_commands sha h m rest h' st' :
  supplies_choice h m rest h' st' ->
  commands (events (install_webui sha h' st'))
  = commands (events (install_for sha
                        (set_environ h (delete "GPU_CHOICE" (environ h)))
                        "NVIDIA" (PState m rest))).
Proof.
  intros [c | line Hok]; rewrite install_webui_run, bind_run.
  - destruct (ask_gpu_choice_environ
                (set_environ h (<["GPU_CHOICE" := c]> (environ h))) c (PState m rest))
      as [texts ->]; [apply lookup_insert_eq|].
    rewrite (install_for_environ sha h (<["GPU_CHOICE" := c]> (environ h))
               (delete "GPU_CHOICE" (environ h)) "NVIDIA").
    + destruct (install_for _ _ _ _) as [[r st2] ev2]. unfold events. cbn [snd].
      rewrite commands_app, commands_prints. reflexivity.
    + rewrite lookup_insert_ne, lookup_delete_ne by discriminate. reflexivity.
    + rewrite lookup_insert_ne, lookup_delete_ne by discriminate. reflexivity.
  - destruct (ask_gpu_choice_menu
                (set_environ h (delete "GPU_CHOICE" (environ h))) line rest m)
      as (ev & -> & Hev); [apply lookup_delete_eq | exact Hok |].
    destruct (install_for _ _ _ _) as [[r st2] ev2]. unfold events. cbn [snd].
    rewrite commands_app, Hev. reflexivity.
Qed.

(** C2: whatever GPU choice is supplied, through [GPU_CHOICE] or as an
    accepted line at the menu, [install_webui] looks up key ["A"], which is
    ["NVIDIA"], and goes on as [install_for "NVIDIA"]; two runs on the same
    host, machine and pending input that differ in the choice only issue the
    same commands. *)
Theorem gpu_choice_is_ignored sha h m rest h1 st1 h2 st2 :
  supplies_choice h m rest h1 st1 ->
  supplies_choice h m rest h2 st2 ->
  gpu_choice_to_name !! "A" = Some "NVIDIA"
  /\ install_webui sha h1 st1
     = (ask_gpu_choice h1 ≫= fun _ => install_for sha h1 "NVIDIA") st1
  /\ commands (events (install_webui sha h1 st1))
     = commands (events (install_webui sha h2 st2)).
Proof.
  intros H1 H2. split; [apply selected_gpu_is_nvidia|].
  split; [apply install_webui_run|].
  rewrite (install_webui_commands sha h m rest h1 st1 H1).
  rewrite (install_webui_commands sha h m rest h2 st2 H2).
  reflexivity.
Qed.

(** C2, witness: [GPU_CHOICE=b] and the menu answer [D] on the same Windows
    host lead to the same commands. *)
Lemma gpu_choice_is_ignored_witness :
  commands (events (install_webui Sample.sha256_of_empty
     (set_environ Sample.windows (<["GPU_CHOICE" := "b"]> (environ Sample.windows)))
     (PState Sample.cuda_machine ["n"])))
  = commands (events (install_webui Sample.sha256_of_empty
     (set_environ Sample.windows (delete "GPU_CHOICE" (environ Sample.windows)))
     (PState Sample.cuda_machine ["D"; "n"]))).
Proof.
  apply (gpu_choice_is_ignored Sample.sha256_of_empty Sample.windows
           Sample.cuda_machine ["n"]).
  - apply by_environ.
  - apply by_menu. reflexivity.
Defined.

(** ** CPU probes and the requirements file *)

Lemma in_list_In (x : string) (l : list string) :
  Py.in_list x l = true <-> In x l.
Proof.
  unfold Py.in_list. rewrite existsb_exists. split.
  - intros (y & Hy & E). apply String.eqb_eq in E. subst. exact Hy.
  - intros H. exists x. split; [exact H | apply String.eqb_refl].
Qed.

Lemma flag_test_false (flag : string) (flags : list string) :
  (if Py.in_list flag flags then true else false) = false <-> ~ In flag flags.
Proof.
  rewrite <- in_list_In. destruct (Py.in_list flag flags); split; intros H;
    try reflexivity; try discriminate; try (intros K; discriminate).
  exfalso. apply H. reflexivity.
Qed.

(** C7: when [cpuinfo] is missing, raises, or returns no ['flags'],
    [cpu_has_avx2] and [cpu_has_amx] answer [true]; each answers [false] only
    when the probe returned a list of flags in which the flag is absent. *)
Theorem cpu_probes_fail_open (m : machine) :
  match cpuinfo m with
  | CpuinfoInfo (Some _) => True
  | _ => cpu_has_avx2 m = true /\ cpu_has_amx m = true
  end
  /\ (cpu_has_avx2 m = false <->
      exists flags, cpuinfo m = CpuinfoInfo (Some flags) /\ ~ In "avx2" flags)
  /\ (cpu_has_amx m = false <->
      exists flags, cpuinfo m = CpuinfoInfo (Some flags) /\ ~ In "amx" flags).
Proof.
  unfold cpu_has_avx2, cpu_has_amx.
  destruct (cpuinfo m) as [| |[flags|]].
  1,2,4: (split; [split; reflexivity|]);
         split; (split; [discriminate | intros (fl & E & _); discriminate]).
  split; [exact I|]. split.
  - rewrite flag_test_false. split.
    + intros H. exists flags. split; [reflexivity | exact H].
    + intros (fl & [= <-] & H). exact H.
  - rewrite flag_test_false. split.
    + intros H. exists flags. split; [reflexivity | exact H].
    + intros (fl & [= <-] & H). exact H.
Qed.

(** C4: the requirements file is the entry of the documented table for
    (ROCm build, CPU-only or Intel build, macOS, x86_64, AVX2), read in that
    priority order, and its name holds [_noavx2] exactly when AVX2 is not
    detected and the file is not one of the two apple files. *)
Theorem requirements_file_selection (h : host) (torver : string) (m : machine) :
  base_requirements h torver m
  = requirements_table (is_rocm torver) (is_cpu torver || is_intel torver)
                       (is_macos h) (is_x86_64 h) (cpu_has_avx2 m)
  /\ Py.str_in "_noavx2" (base_requirements h torver m)
     = negb (cpu_has_avx2 m)
       && (is_rocm torver || is_cpu torver || is_intel torver || negb (is_macos h)).
Proof.
  unfold base_requirements, requirements_table.
  destruct (is_rocm torver), (is_cpu torver), (is_intel torver), (is_macos h),
    (is_x86_64 h), (cpu_has_avx2 m); split; reflexivity.
Qed.

(** ** The prompts and the installation plan *)

(** C9, at the failing inputs: the empty line and the line [bcd] are
    accepted by the GPU prompt at once, with no message and no new prompt
    (the next line stays unread), whereas [x] is refused and the prompt is
    repeated. *)
Theorem gpu_prompt_accepts_more_than_letters :
  (let r := ask_gpu_choice Sample.linux (PState Sample.cuda_machine [EmptyString; "A"]) in
   outcome r = Ok EmptyString /\ stdin (final r) = ["A"]
   /\ ~ In (Print invalid_choice) (events r))
  /\ (let r := ask_gpu_choice Sample.linux (PState Sample.cuda_machine ["bcd"; "A"]) in
      outcome r = Ok "BCD" /\ stdin (final r) = ["A"]
      /\ ~ In (Print invalid_choice) (events r))
  /\ (let r := ask_gpu_choice Sample.linux (PState Sample.cuda_machine ["x"; "A"]) in
      outcome r = Ok "A" /\ stdin (final r) = []
      /\ In (Print invalid_choice) (events r)).
Proof.
  vm_compute. repeat split; try tauto; intuition discriminate.
Qed.

(** C5, at the failing input: NVIDIA on Linux, [USE_CUDA118] unset, and an
    empty line typed at the CUDA question.  The answer is accepted without a
    new prompt, the framework command targets [cu121], and the runtime
    command that follows pins [cuda-11.8.0]. *)
Theorem empty_cuda_answer_mixes_versions :
  let r := install_webui Sample.sha256_of_empty Sample.linux
             (PState Sample.cuda_machine ["A"; EmptyString]) in
  firstn 2 (commands (events r))
  = [ in_environment Sample.linux (pytorch_cmd (pytorch_default +:+ index_url "cu121"));
      in_environment Sample.linux
        ("conda install -y -c " +:+ dq +:+ "nvidia/label/cuda-11.8.0" +:+ dq
           +:+ " cuda-runtime") ]
  /\ In (Print "CUDA: 12.1") (events r)
  /\ ~ In (Print invalid_choice) (events r).
Proof.
  vm_compute. repeat split; try tauto; intuition discriminate.
Qed.

(** C3, as amended: with the GPU resolved to AMD on a host that is not
    Linux, the installation for that GPU prints the explanation and exits
    with status 1 before any command is run, unless the host is macOS, where
    AMD is let through and the default framework command is chosen. *)
Theorem amd_is_fatal_off_linux_and_macos sha h (st : pstate) :
  is_linux h = false ->
  if is_macos h
  then choose_pytorch h "AMD" st = (Ok ("N", pytorch_default), st, [])
  else install_for sha h "AMD" st
       = (Exit 1, st, [Print "AMD GPUs are only supported on Linux. Exiting..."]).
Proof.
  intros Hlinux. destruct (is_macos h) eqn:Hmac.
  - unfold choose_pytorch. rewrite Hlinux, Hmac.
    rewrite orb_false_r, andb_false_r. cbn. reflexivity.
  - unfold install_for.
    change (String.eqb "AMD" "NONE") with false. cbv iota.
    rewrite bind_run. cbv beta iota delta [mret M_ret ret].
    rewrite bind_run. unfold choose_pytorch. rewrite Hlinux, Hmac.
    rewrite orb_false_r, andb_false_r. cbn. reflexivity.
Qed.

(** C3, witness: AMD on a Windows host. *)
Lemma amd_is_fatal_off_linux_and_macos_witness :
  install_for Sample.sha256_of_empty Sample.windows "AMD" (PState Sample.cuda_machine [])
  = (Exit 1, PState Sample.cuda_machine [],
     [Print "AMD GPUs are only supported on Linux. Exiting..."]).
Proof.
  apply (amd_is_fatal_off_linux_and_macos Sample.sha256_of_empty Sample.windows
           (PState Sample.cuda_machine [])).
  vm_compute. reflexivity.
Defined.

(** C3, counterexample: on macOS, which is not Linux, the menu answer [B]
    (AMD) does not end the run: [install_webui] returns normally and its first
    command is the framework installation; the same holds when the GPU is
    resolved to AMD itself. *)
Lemma amd_choice_is_installed_on_macos :
  is_linux Sample.macos = false
  /\ (let r := install_webui Sample.sha256_of_empty Sample.macos
                 (PState Sample.plain_machine ["B"]) in
      outcome r = Ok tt
      /\ hd_error (commands (events r))
         = Some (in_environment Sample.macos (pytorch_cmd pytorch_default)))
  /\ (let r := install_for Sample.sha256_of_empty Sample.macos "AMD"
                 (PState Sample.plain_machine []) in
      outcome r = Ok tt
      /\ hd_error (commands (events r))
         = Some (in_environment Sample.macos (pytorch_cmd pytorch_default))).
Proof. vm_compute. repeat split. Qed.

(** ** Substrings *)

Lemma prefix_cons (a b : ascii) (q t : string) :
  String.prefix (String a q) (String b t) = Ascii.eqb a b && String.prefix q t.
Proof.
  cbn [String.prefix]. destruct (ascii_dec a b) as [->|Hne].
  - rewrite Ascii.eqb_refl. reflexivity.
  - apply Ascii.eqb_neq in Hne. rewrite Hne. reflexivity.
Qed.

Lemma str_in_cons (p : string) (c : ascii) (s : string) :
  Py.str_in p (String c s) = String.prefix p (String c s) || Py.str_in p s.
Proof. reflexivity. Qed.

(** A string without ['+'] holds no token that starts with ['+']. *)
Lemma no_plus_no_token (q s : string) :
  plus_count s = 0 -> Py.str_in (String "+" q) s = false.
Proof.
  induction s as [|c s IH]; [reflexivity|].
  cbn [plus_count]. intros H. rewrite str_in_cons, prefix_cons.
  destruct (Ascii.eqb c "+") eqn:E; [discriminate|].
  rewrite Ascii.eqb_sym, E. cbn [andb orb]. apply IH. exact H.
Qed.

(** In a string with at most one ['+'], every token that starts with ['+']
    continues with the text after that one ['+']. *)
Lemma after_the_plus (s : string) :
  plus_count s <= 1 ->
  exists t, forall q, Py.str_in (String "+" q) s = true -> String.prefix q t = true.
Proof.
  induction s as [|c s IH]; intros H.
  - exists EmptyString. intros q Hq. discriminate.
  - cbn [plus_count] in H. destruct (Ascii.eqb c "+") eqn:E.
    + exists s. intros q. rewrite str_in_cons, prefix_cons.
      rewrite Ascii.eqb_sym, E. rewrite (no_plus_no_token q s) by lia.
      rewrite orb_false_r. cbn [andb]. auto.
    + destruct IH as [t Ht]; [lia|]. exists t. intros q.
      rewrite str_in_cons, prefix_cons, Ascii.eqb_sym, E. cbn [andb orb].
      apply Ht.
Qed.

Ltac clash t :=
  destruct t as [|? [|? ?]];
  repeat match goal with
         | H : String.prefix _ EmptyString = true |- _ => discriminate H
         | H : String.prefix (String _ _) (String _ _) = true |- _ =>
             rewrite prefix_cons in H; apply andb_prop in H; destruct H as [H ?]
         | H : Ascii.eqb _ _ = true |- _ => apply Ascii.eqb_eq in H
         end;
  congruence.

(** C8: for a version string with at most one ['+'], at most one of
    [is_cuda], [is_rocm], [is_intel], [is_cpu] holds; in particular [is_cpu]
    excludes [is_cuda]. *)
Theorem build_flags_exclusive (torver : string) :
  well_formed_version torver ->
  Nat.b2n (is_cuda torver) + Nat.b2n (is_rocm torver)
    + Nat.b2n (is_intel torver) + Nat.b2n (is_cpu torver) <= 1
  /\ (is_cpu torver = true -> is_cuda torver = false).
Proof.
  intros Hwf. destruct (after_the_plus torver Hwf) as [t Ht].
  unfold is_cuda, is_rocm, is_intel, is_cpu.
  destruct (Py.str_in "+cu" torver) eqn:Hcu;
    destruct (Py.str_in "+rocm" torver) eqn:Hrocm;
    destruct (Py.str_in "+cxx11" torver) eqn:Hcxx;
    destruct (Py.str_in "+cpu" torver) eqn:Hcpu;
    try (split; [cbn; lia | intros; congruence]);
    exfalso;
    try (apply Ht in Hcu); try (apply Ht in Hrocm);
    try (apply Ht in Hcxx); try (apply Ht in Hcpu);
    clash t.
Qed.

(** C8, witness: the version string [2.1.0+cu118]. *)
Lemma build_flags_exclusive_witness :
  Nat.b2n (is_cuda "2.1.0+cu118") + Nat.b2n (is_rocm "2.1.0+cu118")
    + Nat.b2n (is_intel "2.1.0+cu118") + Nat.b2n (is_cpu "2.1.0+cu118") <= 1
  /\ (is_cpu "2.1.0+cu118" = true -> is_cuda "2.1.0+cu118" = false).
Proof.
  apply (build_flags_exclusive "2.1.0+cu118").
  unfold well_formed_version. vm_compute. lia.
Defined.

(** ** The legacy-CUDA patch *)


Lemma prefix_nil (s : string) : String.prefix EmptyString s = true.
Proof. destruct s; reflexivity. Qed.

Lemma prefix_app_self (p rest : string) : String.prefix p (p +:+ rest) = true.
Proof.
  induction p as [|b p IH]; [apply prefix_nil|].
  change (String b p +:+ rest) with (String b (p +:+ rest)).
  rewrite prefix_cons, Ascii.eqb_refl. exact IH.
Qed.





Lemma length_app (u v : string) :
  String.length (u +:+ v) = String.length u + String.length v.
Proof.
  induction u as [|c u IH]; [reflexivity|].
  change (String c u +:+ v) with (String c (u +:+ v)).
  cbn [String.length]. rewrite IH. reflexivity.
Qed.









Lemma str_in_false_cons (p : string) (c : ascii) (s : string) :
  Py.str_in p (String c s) = false ->
  String.prefix p (String c s) = false /\ Py.str_in p s = false.
Proof. rewrite str_in_cons. apply orb_false_elim. Qed.









Example to_cu118_example :
  to_cu118 "https://x/llama_cpp_python_cuda-0.2.23+cu121-cp311.whl; +cu1222"
  = "https://x/llama_cpp_python_cuda-0.2.23+cu118-cp311.whl; +cu1182".
Proof. vm_compute. reflexivity. Qed.

(** ** More on the prompts *)

Lemma prompts_rounds msg prompt n : prompts (rounds msg prompt n) = n.
Proof. induction n as [|n IH]; [reflexivity|]. cbn. f_equal. exact IH. Qed.

(** A prompt loop entered with a refused value returns the first line that
    is accepted, or runs out of input. *)
Lemma while_input_run (cond : string -> bool) (msg prompt : string)
    (norm : string -> string) (lines : list string) (x : string) :
  cond x = true ->
  (exists refused line rest,
      lines = refused ++ line :: rest
      /\ forallb (fun l => cond (norm l)) refused = true
      /\ cond (norm line) = false
      /\ while_input cond msg prompt norm x lines
         = (Ok (norm line), rest, rounds msg prompt (S (length refused))))
  \/ (forallb (fun l => cond (norm l)) lines = true
      /\ while_input cond msg prompt norm x lines
         = (Raise EOFError, [], rounds msg prompt (S (length lines)))).
Proof.
  revert x. induction lines as [|l lines IH]; intros x Hx.
  - right. split; [reflexivity|]. cbn. rewrite Hx. reflexivity.
  - cbn [while_input]. rewrite Hx.
    destruct (cond (norm l)) eqn:Hl.
    + destruct (IH (norm l) Hl) as [(refused & line & rest & -> & Hr & Hline & Hrun) | [Hall Hrun]].
      * left. exists (l :: refused), line, rest. rewrite Hrun.
        repeat split; try assumption. cbn. rewrite Hl. exact Hr.
      * right. rewrite Hrun. split; [|reflexivity]. cbn. rewrite Hl. exact Hall.
    + left. exists [], l, lines. repeat split; try assumption.
      destruct lines; cbn [while_input]; rewrite Hl; reflexivity.
Qed.

Lemma ask_gpu_choice_run h (st : pstate) :
  environ h !! "GPU_CHOICE" = None ->
  ask_gpu_choice h st
  = match stdin st with
    | [] => (Raise EOFError, st, gpu_menu ++ [Prompt "Input> "])
    | line :: rest =>
        let '(r, rest', ev) :=
          while_input (fun choice => negb (Py.str_in choice "ABCDN"))
                      invalid_choice "Input> " Py.upper (Py.upper line) rest in
        (r, PState (mach st) rest', gpu_menu ++ Prompt "Input> " :: ev)
    end.
Proof.
  intros Hc. unfold ask_gpu_choice. rewrite Hc.
  repeat (rewrite bind_run; cbv beta iota delta [print emit]).
  unfold input. destruct (stdin st) as [|line rest]; [reflexivity|].
  unfold while_loop. cbv beta iota delta [stdin mach].
  destruct (while_input _ _ _ _ _ rest) as [[r rest'] ev]. reflexivity.
Qed.

(** X1: without [GPU_CHOICE], the GPU prompt returns the upper-cased first
    line whose upper-cased form is a substring of [ABCDN], after one
    "Invalid choice" message and one new prompt for each earlier line, and
    leaves the later lines unread; if no line is accepted it ends with
    [EOFError] once the input is used up. *)
Theorem gpu_prompt_returns_first_accepted_line h (m : machine) (lines : list string) :
  environ h !! "GPU_CHOICE" = None ->
  (exists refused line rest,
      lines = refused ++ line :: rest
      /\ forallb (fun l => negb (gpu_accepts l)) refused = true
      /\ gpu_accepts line = true
      /\ ask_gpu_choice h (PState m lines)
         = (Ok (Py.upper line), PState m rest,
            gpu_menu ++ Prompt "Input> "
              :: rounds invalid_choice "Input> " (length refused)))
  \/ (forallb (fun l => negb (gpu_accepts l)) lines = true
      /\ ask_gpu_choice h (PState m lines)
         = (Raise EOFError, PState m [],
            gpu_menu ++ Prompt "Input> "
              :: rounds invalid_choice "Input> " (length lines))).
Proof.
  intros Hc. rewrite (ask_gpu_choice_run h _ Hc). cbv beta iota delta [stdin mach].
  destruct lines as [|l ls]; [right; split; reflexivity|].
  destruct (gpu_accepts l) eqn:Hl.
  - left. exists [], l, ls. repeat split; [exact Hl|].
    assert (E : while_input (fun choice => negb (Py.str_in choice "ABCDN"))
                  invalid_choice "Input> " Py.upper (Py.upper l) ls
                = (Ok (Py.upper l), ls, [])).
    { unfold gpu_accepts in Hl. destruct ls; cbn [while_input]; rewrite Hl; reflexivity. }
    rewrite E. reflexivity.
  - destruct (while_input_run (fun choice => negb (Py.str_in choice "ABCDN"))
                invalid_choice "Input> " Py.upper ls (Py.upper l))
      as [(refused & line & rest & -> & Hr & Hline & Hrun) | [Hall Hrun]].
    + unfold gpu_accepts in Hl. rewrite Hl. reflexivity.
    + left. exists (l :: refused), line, rest. rewrite Hrun.
      repeat split.
      * cbn [forallb]. rewrite Hl. exact Hr.
      * unfold gpu_accepts. apply negb_false_iff. exact Hline.
    + right. rewrite Hrun. split; [|reflexivity].
      cbn [forallb]. rewrite Hl. exact Hall.
Qed.

(** X1, witness: the lines [x], [ab], [n]. *)
Lemma gpu_prompt_returns_first_accepted_line_witness :
  (exists refused line rest,
      ["x"; "ab"; "n"] = refused ++ line :: rest
      /\ forallb (fun l => negb (gpu_accepts l)) refused = true
      /\ gpu_accepts line = true
      /\ ask_gpu_choice Sample.linux (PState Sample.cuda_machine ["x"; "ab"; "n"])
         = (Ok (Py.upper line), PState Sample.cuda_machine rest,
            gpu_menu ++ Prompt "Input> "
              :: rounds invalid_choice "Input> " (length refused)))
  \/ (forallb (fun l => negb (gpu_accepts l)) ["x"; "ab"; "n"] = true
      /\ ask_gpu_choice Sample.linux (PState Sample.cuda_machine ["x"; "ab"; "n"])
         = (Raise EOFError, PState Sample.cuda_machine [],
            gpu_menu ++ Prompt "Input> "
              :: rounds invalid_choice "Input> " (length ["x"; "ab"; "n"]))).
Proof.
  apply (gpu_prompt_returns_first_accepted_line Sample.linux Sample.cuda_machine
           ["x"; "ab"; "n"]).
  vm_compute. reflexivity.
Defined.





(** X4: the choice of the framework command reads standard input and
    prompts only for NVIDIA on Windows or Linux with [USE_CUDA118] unset; in
    every other case the state is left as it was. *)
Theorem plan_reads_input_only_for_cuda_question h (selected_gpu : string) (st : pstate) :
  (is_windows h || is_linux h) && String.eqb selected_gpu "NVIDIA"
    && negb (bool_decide (is_Some (environ h !! "USE_CUDA118"))) = false ->
  final (choose_pytorch h selected_gpu st) = st
  /\ prompts (events (choose_pytorch h selected_gpu st)) = 0.
Proof.
  intros H. unfold choose_pytorch.
  destruct ((is_windows h || is_linux h) && String.eqb selected_gpu "NVIDIA") eqn:E.
  - cbn [andb] in H. apply negb_false_iff, bool_decide_eq_true in H.
    destruct H as [v Hv]. rewrite bind_run. unfold ask_use_cuda118. rewrite Hv.
    cbv beta iota delta [mret M_ret ret].
    destruct (String.eqb _ "Y"); split; reflexivity.
  - destruct (negb (is_macos h) && String.eqb selected_gpu "AMD").
    + destruct (is_linux h); split; reflexivity.
    + destruct (is_linux h && Py.in_list selected_gpu ["APPLE"; "NONE"]);
        [split; reflexivity|].
      destruct (String.eqb selected_gpu "INTEL"); split; reflexivity.
Qed.

(** X4, witness: NVIDIA on macOS with a line waiting on standard input. *)
Lemma plan_reads_input_only_for_cuda_question_witness :
  final (choose_pytorch Sample.macos "NVIDIA" (PState Sample.plain_machine ["y"]))
  = PState Sample.plain_machine ["y"]
  /\ prompts (events (choose_pytorch Sample.macos "NVIDIA"
                        (PState Sample.plain_machine ["y"]))) = 0.
Proof.
  apply (plan_reads_input_only_for_cuda_question Sample.macos "NVIDIA").
  vm_compute. reflexivity.
Defined.

(** ** Loops over commands that may fail *)

(** A loop whose body always returns, issues one command and leaves
    standard input alone issues one command per element, in order. *)
Lemma for_each_commands {A} (body : A -> M unit) (cmd : A -> string) (l : list A) :
  (forall x st, exists st' ev,
      body x st = (Ok tt, st', ev) /\ commands ev = [cmd x] /\ stdin st' = stdin st) ->
  forall st, exists st' ev,
    for_each l body st = (Ok tt, st', ev)
    /\ commands ev = map cmd l /\ stdin st' = stdin st.
Proof.
  intros Hbody. induction l as [|x l IH]; intros st.
  - exists st, []. repeat split; reflexivity.
  - cbn [for_each]. unfold bind.
    destruct (Hbody x st) as (st1 & ev1 & -> & Hc1 & Hin1).
    destruct (IH st1) as (st2 & ev2 & -> & Hc2 & Hin2).
    exists st2, (ev1 ++ ev2). repeat split.
    + rewrite commands_app, Hc1, Hc2. reflexivity.
    + congruence.
Qed.

Lemma run_cmd_unchecked h (cmd : string) (environment : bool) (st : pstate) :
  run_cmd h cmd false environment st
  = (Ok (subprocess_run h (if environment then in_environment h cmd else cmd) (mach st)).1,
     PState (subprocess_run h (if environment then in_environment h cmd else cmd) (mach st)).2
            (stdin st),
     [Run (if environment then in_environment h cmd else cmd)]).
Proof. rewrite run_cmd_run. reflexivity. Qed.

Lemma listdir_run h (p : string) (entries : list string) (st : pstate) :
  lookup_path h (mach st) p = Some (Dir entries) ->
  listdir h p st = (Ok entries, st, []).
Proof.
  intros H. unfold listdir. rewrite bind_run. cbv beta iota delta [get_machine].
  rewrite H. reflexivity.
Qed.

Lemma map_snd_enumerate {A} (l : list A) : map snd (enumerate l) = l.
Proof.
  unfold enumerate. generalize 0. induction l as [|x l IH]; intros n; [reflexivity|].
  cbn. f_equal. apply IH.
Qed.

(** X5: when [extensions] is a directory, the installation of the
    extensions always returns normally, whatever the install commands
    return; it issues exactly one install command for each listed folder
    that has a [requirements.txt] and is not [superbooga], [superboogav2] or
    [coqui_tts], in the order of the listing, and reads nothing from
    standard input. *)
Theorem install_extensions_is_best_effort h (st : pstate) (entries : list string) :
  lookup_path h (mach st) "extensions" = Some (Dir entries) ->
  outcome (install_extensions h st) = Ok tt
  /\ commands (events (install_extensions h st))
     = map (extension_cmd h) (chosen_extensions h (mach st) entries)
  /\ stdin (final (install_extensions h st)) = stdin st.
Proof.
  intros Hdir. unfold install_extensions.
  rewrite bind_run, print_big_message_run. cbv beta iota.
  rewrite bind_run, (listdir_run h _ _ _ Hdir). cbv beta iota.
  rewrite bind_run. cbv beta iota delta [get_machine].
  fold (chosen_extensions h (mach st) entries).
  set (chosen := chosen_extensions h (mach st) entries).
  match goal with
  | |- context [for_each (enumerate chosen) ?b] =>
      destruct (for_each_commands b (fun ix => extension_cmd h ix.2) (enumerate chosen))
        with (st := st) as (st' & ev & Hrun & Hcmd & Hin)
  end.
  { intros ix st0. rewrite bind_run. cbv beta iota delta [print emit].
    rewrite bind_run, run_cmd_unchecked. cbv beta iota delta [mret M_ret ret].
    eexists _, _. split; [reflexivity|]. split; reflexivity. }
  rewrite Hrun. unfold outcome, events, final. cbn [fst snd].
  repeat split.
  - rewrite !app_nil_l, commands_app, commands_prints, Hcmd.
    rewrite <- (map_map snd (extension_cmd h)), map_snd_enumerate. reflexivity.
  - exact Hin.
Qed.

(** X5, witness: the folders [openai], [superbooga] and [docs]. *)
Lemma install_extensions_is_best_effort_witness :
  outcome (install_extensions Sample.linux (PState extensions_machine [])) = Ok tt
  /\ commands (events (install_extensions Sample.linux (PState extensions_machine [])))
     = map (extension_cmd Sample.linux)
           (chosen_extensions Sample.linux extensions_machine
              ["openai"; "superbooga"; "docs"])
  /\ stdin (final (install_extensions Sample.linux (PState extensions_machine []))) = [].
Proof.
  apply (install_extensions_is_best_effort Sample.linux
           (PState extensions_machine []) ["openai"; "superbooga"; "docs"]).
  vm_compute. reflexivity.
Defined.

Example chosen_extensions_example :
  chosen_extensions Sample.linux extensions_machine ["openai"; "superbooga"; "docs"]
  = ["openai"].
Proof. vm_compute. reflexivity. Qed.

(** ** The name of a package installed from git *)

Lemma char_in_rstrip_by (drop : ascii -> bool) (c : ascii) (s : string) :
  Py.char_in c s = false -> Py.char_in c (Py.rstrip_by drop s) = false.
Proof.
  induction s as [|d s IH]; [reflexivity|].
  cbn [Py.char_in Py.rstrip_by]. intros H. apply orb_false_elim in H as [Hd Hs].
  specialize (IH Hs). destruct (Py.rstrip_by drop s) as [|e r].
  - destruct (drop d); [reflexivity|]. cbn [Py.char_in]. rewrite Hd. reflexivity.
  - cbn [Py.char_in] in *. rewrite Hd. exact IH.
Qed.

Lemma last_char_rstrip_by (drop : ascii -> bool) (s : string) :
  match last_char (Py.rstrip_by drop s) with
  | Some c => drop c = false
  | None => True
  end.
Proof.
  induction s as [|d s IH]; [exact I|].
  cbn [Py.rstrip_by]. destruct (Py.rstrip_by drop s) as [|e r].
  - destruct (drop d) eqn:E; [exact I | exact E].
  - exact IH.
Qed.

(** Splitting at a single character: no field holds the separator, and a
    character that the text lacks is in no field. *)
Lemma split_char_fields (sep c : ascii) (s : string) :
  Forall (fun field => Py.char_in sep field = false
                       /\ (Py.char_in c s = false -> Py.char_in c field = false))
         (Py.split s (String sep EmptyString)).
Proof.
  unfold Py.split. induction s as [|d s IH].
  - repeat constructor.
  - cbn [Py.split_from]. rewrite prefix_cons, prefix_nil, andb_true_r.
    destruct (Ascii.eqb sep d) eqn:E.
    + cbn [String.length Nat.sub]. constructor; [split; reflexivity|].
      eapply List.Forall_impl; [|exact IH]. cbn beta. intros field [H1 H2].
      split; [exact H1|]. cbn [Py.char_in]. intros H.
      apply orb_false_elim in H as [_ H]. auto.
    + destruct (Py.split_from (String sep EmptyString) 0 s) as [|f fs].
      * constructor; [|constructor]. cbn [Py.char_in]. rewrite E. split; [reflexivity|].
        intros H. apply orb_false_elim in H as [-> _]. reflexivity.
      * inversion IH as [|? ? [H1 H2] Hfs]; subst. constructor.
        -- cbn [Py.char_in]. rewrite E, H1. split; [reflexivity|].
           intros H. apply orb_false_elim in H as [-> H]. auto.
        -- eapply List.Forall_impl; [|exact Hfs]. cbn beta. intros field [K1 K2].
           split; [exact K1|]. cbn [Py.char_in]. intros H.
           apply orb_false_elim in H as [_ H]. auto.
Qed.

Lemma split_nonempty (sep s : string) (skip : nat) :
  Py.split_from sep skip s <> [].
Proof.
  revert skip. induction s as [|c s IH]; intros skip; [discriminate|].
  cbn [Py.split_from]. destruct skip; [|apply IH].
  destruct (String.prefix sep (String c s)); [discriminate|].
  destruct (Py.split_from sep 0 s); discriminate.
Qed.

Lemma last_in {A} (l : list A) (d : A) : l <> [] -> In (List.last l d) l.
Proof.
  induction l as [|x l IH]; [congruence|]. intros _.
  destruct l as [|y l]; [left; reflexivity|].
  right. apply IH. discriminate.
Qed.

(** X6: the package name taken from a [git+] requirement holds neither
    ['/'] nor ['@'], and it never ends in one of the characters ['.'], ['g'],
    ['i'], ['t'], since [rstrip(".git")] strips characters, not a suffix. *)
Theorem package_name_shape (req : string) :
  Py.char_in "/" (package_name req) = false
  /\ Py.char_in "@" (package_name req) = false
  /\ match last_char (package_name req) with
     | Some c => Py.char_in c ".git" = false
     | None => True
     end.
Proof.
  unfold package_name.
  set (url := Py.replace req "git+" EmptyString).
  set (tail := List.last (Py.split url "/") EmptyString).
  set (name := List.hd EmptyString (Py.split tail "@")).
  assert (Htail : Py.char_in "/" tail = false).
  { pose proof (split_char_fields "/" "/" url) as H.
    rewrite List.Forall_forall in H.
    destruct (H tail) as [H1 _]; [apply last_in, split_nonempty | exact H1]. }
  assert (Hname : Py.char_in "@" name = false /\ Py.char_in "/" name = false).
  { pose proof (split_char_fields "@" "/" tail) as H. subst name.
    destruct (Py.split tail "@") as [|f fs] eqn:E.
    - exfalso. exact (split_nonempty _ _ _ E).
    - inversion H as [|? ? [H1 H2] _]; subst. cbn [List.hd]. auto. }
  destruct Hname as [Hat Hslash].
  split; [apply char_in_rstrip_by, Hslash|].
  split; [apply char_in_rstrip_by, Hat|].
  apply (last_char_rstrip_by (fun c => Py.char_in c ".git")).
Qed.

Example package_name_of_peft :
  package_name "git+https://github.com/huggingface/peft" = "pef".
Proof. vm_compute. reflexivity. Qed.

(** ** Required commands and the way through the update *)

Lemma run_cmd_required_ok h (cmd : string) (st : pstate) (m' : machine) :
  subprocess_run h (in_environment h cmd) (mach st) = (0%Z, m') ->
  run_cmd h cmd true true st
  = (Ok 0%Z, PState m' (stdin st), [Run (in_environment h cmd)]).
Proof. intros H. rewrite run_cmd_run. cbv zeta. rewrite H. reflexivity. Qed.

Lemma run_cmd_required_fails h (cmd : string) (st : pstate) (rc : Z) (m' : machine) :
  subprocess_run h (in_environment h cmd) (mach st) = (rc, m') ->
  rc <> 0%Z ->
  run_cmd h cmd true true st
  = (Exit 1, PState m' (stdin st),
     [Run (in_environment h cmd); Print (failed_message (in_environment h cmd) rc)]).
Proof.
  intros H Hrc. rewrite run_cmd_run. cbv zeta. rewrite H. cbn [fst snd andb].
  apply Z.eqb_neq in Hrc. rewrite Hrc. reflexivity.
Qed.

Lemma first_changed_none sha h (m1 m2 : machine) :
  (forall f, In f files_to_check ->
             calculate_file_hash sha h m1 f = calculate_file_hash sha h m2 f) ->
  first_changed sha h m1 m2 = None.
Proof.
  unfold first_changed. induction files_to_check as [|f l IH]; intros H;
    [reflexivity|].
  cbn [List.find]. rewrite (H f) by (left; reflexivity).
  rewrite String.eqb_refl. cbn [negb]. apply IH. intros g Hg. apply H. right. exact Hg.
Qed.

(** X7: when the pull succeeds and every tracked file has the same
    fingerprint before and after it, the guard prints nothing and
    [update_requirements] goes on with the installation of the requirements
    from the machine the pull left. *)
Theorem update_goes_on_when_fingerprints_agree sha h b st st1 ev1 (m2 : machine) :
  create_git_directory h st = (Ok tt, st1, ev1) ->
  subprocess_run h (in_environment h "git pull --autostash") (mach st1) = (0%Z, m2) ->
  (forall f, In f files_to_check ->
             calculate_file_hash sha h (mach st1) f = calculate_file_hash sha h m2 f) ->
  update_requirements sha h b st
  = (let '(r, st3, ev3) := install_requirements h b (PState m2 (stdin st1)) in
     (r, st3, ev1 ++ Run (in_environment h "git pull --autostash") :: ev3)).
Proof.
  intros Hgit Hpull Hsame. unfold update_requirements.
  rewrite (bind_ok _ _ _ _ _ _ Hgit). rewrite bind_run. unfold pull_and_check.
  rewrite bind_run. cbv beta iota delta [get_machine].
  rewrite bind_run, (run_cmd_required_ok _ _ _ _ Hpull). cbv beta iota.
  rewrite bind_run. cbv beta iota delta [get_machine]. cbn [mach].
  rewrite check_hashes_run, (first_changed_none _ _ _ _ Hsame).
  destruct (install_requirements h b _) as [[r st3] ev3]. reflexivity.
Qed.

(** X8: when [git pull] returns a non-zero status, [update_requirements]
    prints the failure message with that status and exits with status 1;
    no fingerprint is compared and nothing is installed. *)
Theorem update_stops_when_pull_fails sha h b st st1 ev1 (rc : Z) (m2 : machine) :
  create_git_directory h st = (Ok tt, st1, ev1) ->
  subprocess_run h (in_environment h "git pull --autostash") (mach st1) = (rc, m2) ->
  rc <> 0%Z ->
  update_requirements sha h b st
  = (Exit 1, PState m2 (stdin st1),
     ev1 ++ [Run (in_environment h "git pull --autostash");
             Print (failed_message (in_environment h "git pull --autostash") rc)]).
Proof.
  intros Hgit Hpull Hrc. unfold update_requirements.
  rewrite (bind_ok _ _ _ _ _ _ Hgit). rewrite bind_run. unfold pull_and_check.
  rewrite bind_run. cbv beta iota delta [get_machine].
  rewrite bind_run, (run_cmd_required_fails _ _ _ _ _ Hpull Hrc). reflexivity.
Qed.

(** X9: the git directory is created only when it is missing: with a
    [.git] in place no command is issued for it, and a creation that
    returns a non-zero status ends the update with status 1 before the
    pull. *)
Theorem git_directory_is_created_when_missing sha h b (st : pstate) :
  (path_exists h (mach st) (joins h (script_dir h) [".git"]) = true ->
   create_git_directory h st = (Ok tt, st, []))
  /\ (forall rc m',
        path_exists h (mach st) (joins h (script_dir h) [".git"]) = false ->
        subprocess_run h (in_environment h git_creation_cmd) (mach st) = (rc, m') ->
        (rc = 0%Z ->
         create_git_directory h st
         = (Ok tt, PState m' (stdin st), [Run (in_environment h git_creation_cmd)]))
        /\ (rc <> 0%Z ->
            update_requirements sha h b st
            = (Exit 1, PState m' (stdin st),
               [Run (in_environment h git_creation_cmd);
                Print (failed_message (in_environment h git_creation_cmd) rc)]))).
Proof.
  split.
  - intros He. unfold create_git_directory. rewrite bind_run.
    cbv beta iota delta [get_machine]. rewrite He. reflexivity.
  - intros rc m' He Hrun. split.
    + intros ->. unfold create_git_directory. rewrite bind_run.
      cbv beta iota delta [get_machine]. rewrite He. cbn [negb].
      rewrite bind_run, (run_cmd_required_ok _ _ _ _ Hrun). reflexivity.
    + intros Hrc. unfold update_requirements, create_git_directory.
      rewrite bind_run, bind_run. cbv beta iota delta [get_machine]. rewrite He.
      cbn [negb].
      rewrite bind_run, (run_cmd_required_fails _ _ _ _ _ Hrun Hrc). reflexivity.
Qed.

(** X10: when the framework installation command returns a non-zero
    status, the installation exits with status 1 right after the failure
    message: no runtime is installed and the update is not started. *)
Theorem framework_failure_ends_the_installation sha h (selected_gpu : string)
    st plan st1 ev (rc : Z) (m' : machine) :
  String.eqb selected_gpu "NONE" = false ->
  choose_pytorch h selected_gpu st = (Ok plan, st1, ev) ->
  subprocess_run h (in_environment h (pytorch_cmd plan.2)) (mach st1) = (rc, m') ->
  rc <> 0%Z ->
  install_for sha h selected_gpu st
  = (Exit 1, PState m' (stdin st1),
     ev ++ (Print <$> big_message_text "Installing PyTorch.")
        ++ [Run (in_environment h (pytorch_cmd plan.2));
            Print (failed_message (in_environment h (pytorch_cmd plan.2)) rc)]).
Proof.
  intros Hnone Hplan Hrun Hrc. unfold install_for. rewrite Hnone.
  rewrite bind_run. cbv beta iota delta [mret M_ret ret].
  rewrite (bind_ok _ _ _ _ _ _ Hplan).
  rewrite bind_run, print_big_message_run. cbv beta iota.
  rewrite bind_run, (run_cmd_required_fails _ _ _ _ _ Hrun Hrc).
  rewrite app_nil_l. reflexivity.
Qed.

(** X7, witness: a pull that changes nothing. *)
Lemma update_goes_on_when_fingerprints_agree_witness :
  update_requirements Sample.sha256_of_empty Sample.linux false
    (PState Sample.cuda_machine [])
  = (let '(r, st3, ev3) :=
       install_requirements Sample.linux false (PState Sample.cuda_machine []) in
     (r, st3, [] ++ Run (in_environment Sample.linux "git pull --autostash") :: ev3)).
Proof.
  apply (update_goes_on_when_fingerprints_agree Sample.sha256_of_empty Sample.linux
           false (PState Sample.cuda_machine []) (PState Sample.cuda_machine []) []
           Sample.cuda_machine).
  - vm_compute. reflexivity.
  - vm_compute. reflexivity.
  - intros f _. reflexivity.
Defined.

(** X8, witness: a shell in which [git pull] returns 1. *)
Lemma update_stops_when_pull_fails_witness :
  update_requirements Sample.sha256_of_empty (linux_refusing "git pull") false
    (PState Sample.cuda_machine [])
  = (Exit 1, PState Sample.cuda_machine [],
     [] ++ [Run (in_environment (linux_refusing "git pull") "git pull --autostash");
            Print (failed_message
                     (in_environment (linux_refusing "git pull") "git pull --autostash")
                     1)]).
Proof.
  apply (update_stops_when_pull_fails Sample.sha256_of_empty
           (linux_refusing "git pull") false (PState Sample.cuda_machine [])
           (PState Sample.cuda_machine []) [] 1%Z Sample.cuda_machine).
  - vm_compute. reflexivity.
  - vm_compute. reflexivity.
  - discriminate.
Defined.

(** X10, witness: AMD on Linux with a failing [pip install torch]. *)
Lemma framework_failure_ends_the_installation_witness :
  install_for Sample.sha256_of_empty (linux_refusing "pip install torch") "AMD"
    (PState Sample.cuda_machine [])
  = (Exit 1, PState Sample.cuda_machine [],
     [] ++ (Print <$> big_message_text "Installing PyTorch.")
        ++ [Run (in_environment (linux_refusing "pip install torch")
                   (pytorch_cmd (pytorch_default +:+ index_url "rocm5.6")));
            Print (failed_message
                     (in_environment (linux_refusing "pip install torch")
                        (pytorch_cmd (pytorch_default +:+ index_url "rocm5.6")))
                     1)]).
Proof.
  apply (framework_failure_ends_the_installation Sample.sha256_of_empty
           (linux_refusing "pip install torch") "AMD" (PState Sample.cuda_machine [])
           ("N", pytorch_default +:+ index_url "rocm5.6")
           (PState Sample.cuda_machine []) [] 1%Z Sample.cuda_machine).
  - reflexivity.
  - vm_compute. reflexivity.
  - vm_compute. reflexivity.
  - discriminate.
Defined.

(** ** Startup *)

Ltac check_env_case :=
  repeat match goal with
         | H : _ /\ _ |- _ => destruct H
         | H : exists _, _ |- _ => destruct H
         | H : _ \/ _ |- _ => destruct H
         end;
  try discriminate; try congruence; eauto.

(** X11: [check_env] runs the one command [conda]; it returns normally
    exactly when that command returns 0 and [CONDA_DEFAULT_ENV] is set to
    something other than [base]; it exits with status 1 when the command
    fails or the variable is [base]; and with the variable unset it raises
    [KeyError]. *)
Theorem check_env_passes_only_in_an_environment h (st : pstate) :
  let conda := subprocess_run h (in_environment h "conda") (mach st) in
  let r := check_env h st in
  commands (events r) = [in_environment h "conda"]
  /\ final r = PState conda.2 (stdin st)
  /\ (outcome r = Ok tt <->
      conda.1 = 0%Z
      /\ exists v, environ h !! "CONDA_DEFAULT_ENV" = Some v /\ v <> "base")
  /\ (outcome r = Raise KeyError <->
      conda.1 = 0%Z /\ environ h !! "CONDA_DEFAULT_ENV" = None)
  /\ (outcome r = Exit 1 <->
      conda.1 <> 0%Z \/ environ h !! "CONDA_DEFAULT_ENV" = Some "base").
Proof.
  cbv zeta. unfold check_env. rewrite bind_run, run_cmd_unchecked.
  destruct (subprocess_run h (in_environment h "conda") (mach st)) as [rc m'].
  cbn [fst snd]. cbv beta iota.
  destruct (Z.eqb_spec rc 0) as [->|Hrc]; cbn [negb].
  - rewrite bind_run. cbv beta iota delta [mret M_ret ret].
    rewrite bind_run. unfold dict_get.
    destruct (environ h !! "CONDA_DEFAULT_ENV") as [v|] eqn:Hv;
      cbv beta iota delta [mret M_ret ret];
      [destruct (String.eqb_spec v "base") as [->|Hne]|];
      unfold outcome, events, final; cbn;
      (split; [reflexivity|]); (split; [reflexivity|]);
      repeat split; intros; check_env_case.
  - unfold outcome, events, final. cbn.
    (split; [reflexivity|]); (split; [reflexivity|]);
      repeat split; intros; check_env_case.
Qed.

(** ** The banner *)

(** X12: [print_big_message] always returns, leaves the state alone, runs
    no command and asks nothing; its first and last texts are the two lines
    of asterisks, and for a message of blanks only these two are printed. *)
Theorem big_message_only_prints (message : string) (st : pstate) :
  let r := print_big_message message st in
  outcome r = Ok tt
  /\ final r = st
  /\ commands (events r) = [] /\ prompts (events r) = 0
  /\ hd_error (events r) = Some (Print (Py.nl +:+ Py.nl +:+ stars))
  /\ List.last (events r) (Print EmptyString) = Print (stars +:+ Py.nl +:+ Py.nl)
  /\ (Py.strip message = EmptyString ->
      events r = [Print (Py.nl +:+ Py.nl +:+ stars); Print (stars +:+ Py.nl +:+ Py.nl)]).
Proof.
  cbv zeta. rewrite print_big_message_run. unfold outcome, final, events. cbn [fst snd].
  split; [reflexivity|]. split; [reflexivity|].
  split; [apply commands_prints|].
  split.
  { generalize (big_message_text message). intros l.
    induction l as [|x l IH]; [reflexivity | exact IH]. }
  unfold big_message_text.
  split; [reflexivity|]. split.
  { rewrite fmap_app, fmap_app, app_assoc. apply last_last. }
  intros ->. reflexivity.
Qed.

(** ** The persisted flags *)

(** X13: a line of [CMD_FLAGS.txt] that starts with ['#'] after stripping,
    or that is empty once blanks and trailing backslashes are stripped, adds
    nothing to the flags, wherever it stands. *)
Theorem cmd_flags_skip_comments_and_blank_lines (before after : list string)
    (line : string) :
  Py.startswith (Py.strip line) "#" || negb (truth (flag_of_line line)) = true ->
  cmd_flags_of_lines (before ++ line :: after)
  = cmd_flags_of_lines (before ++ after).
Proof.
  intros H. unfold cmd_flags_of_lines.
  rewrite !List.filter_app. cbn [List.filter].
  destruct (truth (flag_of_line line)); cbn [negb andb orb] in *.
  - rewrite orb_false_r in H. rewrite H. reflexivity.
  - reflexivity.
Qed.

(** X13, witness: a comment between two flags. *)
Lemma cmd_flags_skip_comments_and_blank_lines_witness :
  cmd_flags_of_lines (["--listen" +:+ Py.nl] ++ ("  # --share" +:+ Py.nl)
                        :: ["--api " +:+ bslash +:+ Py.nl])
  = cmd_flags_of_lines (["--listen" +:+ Py.nl] ++ ["--api " +:+ bslash +:+ Py.nl]).
Proof.
  apply (cmd_flags_skip_comments_and_blank_lines
           ["--listen" +:+ Py.nl] ["--api " +:+ bslash +:+ Py.nl]
           ("  # --share" +:+ Py.nl)).
  vm_compute. reflexivity.
Defined.

Example cmd_flags_example :
  cmd_flags_of_lines
    (readlines ("--listen" +:+ Py.nl +:+ "# --share" +:+ Py.nl +:+ Py.nl
                  +:+ "--api " +:+ bslash +:+ Py.nl +:+ "--verbose"))
  = "--listen --api --verbose".
Proof. vm_compute. reflexivity. Qed.

(** ** The version of the installed torch *)

Lemma split_without_separator (sep s : string) :
  Py.str_in sep s = false -> Py.split s sep = [s].
Proof.
  unfold Py.split. induction s as [|c s IH]; intros H; [reflexivity|].
  apply str_in_false_cons in H as [E H].
  cbn [Py.split_from]. rewrite E, (IH H). reflexivity.
Qed.

Lemma split_from_skip (sep u rest : string) :
  Py.split_from sep (String.length u) (u +:+ rest) = Py.split_from sep 0 rest.
Proof.
  induction u as [|c u IH]; [reflexivity|].
  change (String c u +:+ rest) with (String c (u +:+ rest)).
  cbn [String.length Py.split_from]. exact IH.
Qed.

Lemma split_at_separator (a : ascii) (q rest : string) :
  Py.split (String a q +:+ rest) (String a q)
  = EmptyString :: Py.split rest (String a q).
Proof.
  unfold Py.split.
  change (String a q +:+ rest) with (String a (q +:+ rest)).
  cbn [Py.split_from].
  assert (E : String.prefix (String a q) (String a (q +:+ rest)) = true)
    by apply (prefix_app_self (String a q) rest).
  rewrite E.
  replace (String.length (String a q) - 1) with (String.length q)
    by (cbn [String.length]; lia).
  rewrite split_from_skip. reflexivity.
Qed.

Lemma rstrip_by_snoc (drop : ascii -> bool) (w : string) (q : ascii) :
  drop q = true ->
  Py.rstrip_by drop (w +:+ String q EmptyString) = Py.rstrip_by drop w.
Proof.
  intros Hq. induction w as [|c w IH].
  - change (EmptyString +:+ String q EmptyString) with (String q EmptyString).
    cbn [Py.rstrip_by]. rewrite Hq. reflexivity.
  - change (String c w +:+ String q EmptyString)
      with (String c (w +:+ String q EmptyString)).
    cbn [Py.rstrip_by]. rewrite IH. reflexivity.
Qed.

Lemma strip_by_between (drop : ascii -> bool) (v : string) (q : ascii) :
  drop q = true ->
  Py.strip_by drop (String q (v +:+ String q EmptyString)) = Py.strip_by drop v.
Proof.
  intros Hq. unfold Py.strip_by. cbn [Py.lstrip_by]. rewrite Hq.
  induction v as [|c v IH].
  - change (EmptyString +:+ String q EmptyString) with (String q EmptyString).
    cbn [Py.lstrip_by]. rewrite Hq. reflexivity.
  - change (String c v +:+ String q EmptyString)
      with (String c (v +:+ String q EmptyString)).
    cbn [Py.lstrip_by]. destruct (drop c); [exact IH|].
    change (String c (v +:+ String q EmptyString))
      with (String c v +:+ String q EmptyString).
    apply rstrip_by_snoc, Hq.
Qed.

(** X14: when a site directory of the conda environment is found and the
    first line of its [torch/version.py] that mentions [__version__] is the
    assignment of a quoted [v], [torch_version] returns [v]: without state
    change and without importing torch. *)
Theorem torch_version_reads_the_assignment h (st : pstate)
    (p content v : string) (more : list string) :
  List.find (in_conda_env h) (getsitepackages h) = Some p ->
  lookup_path h (mach st) (joins h p ["torch"; "version.py"]) = Some (File content) ->
  List.filter (Py.str_in "__version__") (Py.splitlines content)
  = ("__version__ = " +:+ String "'" (v +:+ "'")) :: more ->
  Py.str_in "__version__ = " (String "'" (v +:+ "'")) = false ->
  Py.strip_chars v "'" = v ->
  torch_version h st = (Ok v, st, []).
Proof.
  intros Hfind Hfile Hline Hsep Hv. unfold torch_version.
  fold (in_conda_env h). rewrite Hfind.
  assert (Hp : exists c p', p = String c p').
  { apply List.find_some in Hfind as [_ Hp]. unfold in_conda_env in Hp.
    apply andb_prop in Hp as [Hp _]. destruct p; [discriminate | eauto]. }
  destruct Hp as (c & p' & ->).
  rewrite bind_run. unfold read_file. rewrite bind_run.
  cbv beta iota delta [get_machine]. rewrite Hfile.
  cbv beta iota delta [mret M_ret ret]. rewrite Hline.
  rewrite split_at_separator, (split_without_separator _ _ Hsep).
  unfold Py.strip_chars in *.
  rewrite (strip_by_between (fun c0 => Py.char_in c0 "'") v "'" eq_refl), Hv.
  reflexivity.
Qed.

(** X15: [torch_version] changes nothing and prints nothing.  Without a
    site directory of the conda environment it is the version of the
    importable torch, or [ImportError]; with one, a missing [version.py] is an
    [OSError], and a file with no line mentioning [__version__], or whose
    first such line lacks the assignment text, is an [IndexError]. *)
Theorem torch_version_failures h (st : pstate) :
  final (torch_version h st) = st
  /\ events (torch_version h st) = []
  /\ (List.find (in_conda_env h) (getsitepackages h) = None ->
      outcome (torch_version h st)
      = match torch_module (mach st) with
        | Some torver => Ok torver
        | None => Raise ImportError
        end)
  /\ (forall p,
        List.find (in_conda_env h) (getsitepackages h) = Some p ->
        match lookup_path h (mach st) (joins h p ["torch"; "version.py"]) with
        | Some (File content) =>
            match List.filter (Py.str_in "__version__") (Py.splitlines content) with
            | [] => outcome (torch_version h st) = Raise IndexError
            | line :: _ =>
                Py.str_in "__version__ = " line = false ->
                outcome (torch_version h st) = Raise IndexError
            end
        | _ => outcome (torch_version h st) = Raise OSError
        end).
Proof.
  unfold torch_version. fold (in_conda_env h).
  destruct (List.find (in_conda_env h) (getsitepackages h)) as [p|] eqn:Hfind.
  - assert (Hp : exists c p', p = String c p').
    { apply List.find_some in Hfind as [_ Hp]. unfold in_conda_env in Hp.
      apply andb_prop in Hp as [Hp _]. destruct p; [discriminate | eauto]. }
    destruct Hp as (c & p' & ->).
    rewrite bind_run. unfold read_file. rewrite bind_run.
    cbv beta iota delta [get_machine].
    destruct (lookup_path h (mach st) _) as [[content|entries]|] eqn:Hfile;
      cbv beta iota delta [mret M_ret ret raise].
    + destruct (List.filter _ (Py.splitlines content)) as [|line more] eqn:Hl.
      * repeat split; try discriminate.
        intros q [= <-]. rewrite Hfile, Hl. reflexivity.
      * assert (Hst : forall r, r = (let '(r0, st2, ev2) :=
                   match Py.split line "__version__ = " with
                   | _ :: v :: _ => (fun st0 : pstate => (Ok (Py.strip_chars v "'"), st0, []))
                   | _ => fun st0 : pstate => (@Raise string IndexError, st0, [])
                   end st in (r0, st2, [] ++ ev2)) ->
                 final r = st /\ events r = []).
        { intros r ->. destruct (Py.split line _) as [|? [|? ?]]; split; reflexivity. }
        split; [apply Hst; reflexivity|]. split; [apply Hst; reflexivity|].
        split; [discriminate|].
        intros q [= <-]. rewrite Hfile, Hl. intros Hsep.
        rewrite (split_without_separator _ _ Hsep). reflexivity.
    + repeat split; try discriminate.
      intros q [= <-]. rewrite Hfile. reflexivity.
    + repeat split; try discriminate.
      intros q [= <-]. rewrite Hfile. reflexivity.
  - rewrite bind_run. cbv beta iota delta [get_machine].
    destruct (torch_module (mach st)); repeat split; try discriminate; reflexivity.
Qed.

(** X14, witness: the version file of torch 2.1.2+cu121. *)
Lemma torch_version_reads_the_assignment_witness :
  torch_version conda_linux (PState torch_machine [])
  = (Ok "2.1.2+cu121", PState torch_machine [], []).
Proof.
  apply (torch_version_reads_the_assignment conda_linux (PState torch_machine [])
           "/opt/webui/installer_files/env/lib/python3.11/site-packages"
           version_py "2.1.2+cu121" []);
    vm_compute; reflexivity.
Defined.

(** ** Writing the requirements back *)

Lemma append_assoc (a b c : string) : (a +:+ b) +:+ c = a +:+ (b +:+ c).
Proof.
  induction a as [|x a IH]; [reflexivity|].
  change ((String x a +:+ b) +:+ c) with (String x ((a +:+ b) +:+ c)).
  rewrite IH. reflexivity.
Qed.

Lemma append_nil_r (a : string) : a +:+ EmptyString = a.
Proof.
  induction a as [|x a IH]; [reflexivity|].
  change (String x a +:+ EmptyString) with (String x (a +:+ EmptyString)).
  rewrite IH. reflexivity.
Qed.

Lemma splitlines_from_line (cur line rest : string) :
  has_linebreak line = false ->
  Py.splitlines_from cur false (line +:+ rest)
  = Py.splitlines_from (cur +:+ line) false rest.
Proof.
  revert cur. induction line as [|c line IH]; intros cur H.
  - rewrite append_nil_r. reflexivity.
  - unfold has_linebreak in H. cbn [list_ascii_of_string existsb] in H.
    apply orb_false_elim in H as [Hc H].
    change (String c line +:+ rest) with (String c (line +:+ rest)).
    cbn [Py.splitlines_from andb]. rewrite Hc.
    rewrite (IH _ H). unfold Py.snoc. rewrite append_assoc. reflexivity.
Qed.

Lemma splitlines_from_nl (cur rest : string) :
  Py.splitlines_from cur false (Py.nl +:+ rest)
  = cur :: Py.splitlines_from EmptyString false rest.
Proof. reflexivity. Qed.

(** X16: joining requirement lines with line feeds, as done for
    [temp_requirements.txt], and splitting the text into lines again gives
    the same list, when no line holds a line break and the last line is not
    empty. *)
Theorem requirements_survive_the_temporary_file (lines : list string) :
  forallb (fun line => negb (has_linebreak line)) lines = true ->
  List.last lines "x" <> EmptyString ->
  Py.splitlines (Py.join Py.nl lines) = lines.
Proof.
  unfold Py.splitlines. induction lines as [|x lines IH]; intros Hall Hlast;
    [reflexivity|].
  cbn [forallb] in Hall. apply andb_prop in Hall as [Hx Hall].
  apply negb_true_iff in Hx.
  destruct lines as [|y lines].
  - cbn [Py.join List.last] in *.
    rewrite <- (append_nil_r x) at 1.
    rewrite (splitlines_from_line _ _ _ Hx). cbn [Py.splitlines_from].
    change (EmptyString +:+ x) with x. destruct x; [congruence | reflexivity].
  - change (Py.join Py.nl (x :: y :: lines))
      with (x +:+ Py.nl +:+ Py.join Py.nl (y :: lines)).
    rewrite (splitlines_from_line _ _ _ Hx), splitlines_from_nl.
    change (EmptyString +:+ x) with x. f_equal.
    apply IH; [exact Hall | exact Hlast].
Qed.

(** X16, witness: three lines, the middle one empty. *)
Lemma requirements_survive_the_temporary_file_witness :
  Py.splitlines (Py.join Py.nl ["accelerate==0.25.*"; EmptyString; "numpy==1.24.*"])
  = ["accelerate==0.25.*"; EmptyString; "numpy==1.24.*"].
Proof.
  apply (requirements_survive_the_temporary_file
           ["accelerate==0.25.*"; EmptyString; "numpy==1.24.*"]).
  - vm_compute. reflexivity.
  - vm_compute. discriminate.
Defined.

Example trailing_blank_line_is_lost :
  Py.splitlines (Py.join Py.nl ["accelerate==0.25.*"; EmptyString])
  = ["accelerate==0.25.*"].
Proof. vm_compute. reflexivity. Qed.

(** ** How a run of the requirements installation can end *)




















(** A bound computation that ends normally ran its first part to the end. *)
Lemma ok_run_bind {A B} (Q : list event -> Prop) (m : M A) (k : A -> M B) st b :
  (forall a st1 ev1,
      m st = (Ok a, st1, ev1) -> outcome (k a st1) = Ok b ->
      Q (ev1 ++ events (k a st1))) ->
  outcome ((m ≫= k) st) = Ok b -> Q (events ((m ≫= k) st)).
Proof.
  intros H. rewrite bind_run. unfold outcome, events in *.
  destruct (m st) as [[[a|c'|e] st1] ev1]; try discriminate.
  specialize (H a st1 ev1 eq_refl).
  destruct (k a st1) as [[r st2] ev2]. exact H.
Qed.


Lemma clear_cache_run h (st : pstate) :
  outcome (clear_cache h st) = Ok tt /\ events (clear_cache h st) = cache_purge h.
Proof.
  unfold clear_cache. rewrite bind_run, run_cmd_unchecked.
  rewrite bind_run, run_cmd_unchecked. split; reflexivity.
Qed.




(** X18: a run of [update_requirements] past the guard that returns
    normally has installed the project requirements, and the last two
    things it did are the two commands of [clear_cache]. *)
Theorem requirements_run_ends_with_the_cache_purge h (b : bool) (st : pstate) :
  outcome (install_requirements h b st) = Ok tt ->
  exists ev0,
    events (install_requirements h b st) = ev0 ++ cache_purge h
    /\ In (Run (requirements_cmd h)) ev0.
Proof.
  set (P := fun ev : list event => exists ev0, ev = ev0 ++ cache_purge h).
  set (Q := fun ev : list event =>
              exists ev0, ev = ev0 ++ cache_purge h
                          /\ In (Run (requirements_cmd h)) ev0).
  assert (Ppre : forall ev ev', P ev -> P (ev' ++ ev)).
  { intros ev ev' (ev0 & ->). exists (ev' ++ ev0). apply app_assoc. }
  assert (Qpre : forall ev ev', Q ev -> Q (ev' ++ ev)).
  { intros ev ev' (ev0 & -> & Hin). exists (ev' ++ ev0).
    split; [apply app_assoc | apply in_or_app; right; exact Hin]. }
  assert (Pend : forall st', P (events (clear_cache h st'))).
  { intros st'. destruct (clear_cache_run h st') as [_ ->]. exists []. reflexivity. }
  change (outcome (install_requirements h b st) = Ok tt
          -> Q (events (install_requirements h b st))).
  unfold install_requirements. cbv zeta.
  do 10 (apply ok_run_bind; intros ? ? ? _ H; apply Qpre; revert H; cbv beta).
  apply ok_run_bind. intros rc st' ev Hrun.
  assert (Hev : ev = [Run (requirements_cmd h)]).
  { revert Hrun. rewrite run_cmd_run. cbv zeta.
    destruct (_ && _); intros [= _ _ <-]; reflexivity. }
  subst ev. clear Hrun. intros H.
  assert (PQ : forall ev, P ev -> Q ([Run (requirements_cmd h)] ++ ev)).
  { intros ev (pre & ->). exists (Run (requirements_cmd h) :: pre).
    split; [reflexivity | left; reflexivity]. }
  apply PQ. revert H.
  do 2 (apply ok_run_bind; intros ? ? ? _ H; apply Ppre; revert H; cbv beta).
  match goal with
  | |- context [if ?x then clear_cache h else _] => destruct x
  end.
  - intros _. apply Pend.
  - do 2 (apply ok_run_bind; intros ? ? ? _ H; apply Ppre; revert H; cbv beta).
    intros _. apply Pend.
Qed.


(** X18, witness: an update on Linux in which every command succeeds. *)
Lemma requirements_run_ends_with_the_cache_purge_witness :
  exists ev0,
    events (install_requirements Sample.linux false (PState Sample.plain_machine []))
    = ev0 ++ cache_purge Sample.linux
    /\ In (Run (requirements_cmd Sample.linux)) ev0.
Proof.
  apply (requirements_run_ends_with_the_cache_purge Sample.linux false
           (PState Sample.plain_machine [])).
  vm_compute. reflexivity.
Defined.

(** ** The update never touches standard input *)

Lemma prompts_app (ev1 ev2 : list event) :
  prompts (ev1 ++ ev2) = prompts ev1 + prompts ev2.
Proof. unfold prompts. rewrite List.filter_app. apply List.length_app. Qed.

Lemma silent_ret {A} (a : A) : silent (mret a).
Proof. intros st. split; reflexivity. Qed.

Lemma silent_raise {A} (e : exn) : silent (@raise A e).
Proof. intros st. split; reflexivity. Qed.

Lemma silent_sys_exit {A} (c : Z) : silent (@sys_exit A c).
Proof. intros st. split; reflexivity. Qed.

Lemma silent_print (text : string) : silent (print text).
Proof. intros st. split; reflexivity. Qed.

Lemma silent_emit_run (cmd : string) : silent (emit (Run cmd)).
Proof. intros st. split; reflexivity. Qed.

Lemma silent_get_machine : silent get_machine.
Proof. intros st. split; reflexivity. Qed.

Lemma silent_put_machine (m : machine) : silent (put_machine m).
Proof. intros st. split; reflexivity. Qed.

Lemma silent_bind {A B} (m : M A) (k : A -> M B) :
  silent m -> (forall a, silent (k a)) -> silent (m ≫= k).
Proof.
  intros Hm Hk st. rewrite bind_run.
  destruct (Hm st) as [Hs Hp]. unfold final, events in *.
  destruct (m st) as [[[a|c'|e] st1] ev1]; cbn [fst snd] in *.
  - destruct (Hk a st1) as [Hs' Hp']. unfold final, events in *.
    destruct (k a st1) as [[r st2] ev2]; cbn [fst snd] in *.
    split; [congruence|]. rewrite prompts_app, Hp, Hp'. reflexivity.
  - split; assumption.
  - split; assumption.
Qed.

Lemma silent_for_each {A} (l : list A) (body : A -> M unit) :
  (forall x, silent (body x)) -> silent (for_each l body).
Proof.
  intros Hbody. induction l as [|x l IH].
  - intros st. split; reflexivity.
  - cbn [for_each]. apply (silent_bind (body x) (fun _ => for_each l body)).
    + apply Hbody.
    + intros _. exact IH.
Qed.

Lemma silent_print_big_message (message : string) :
  silent (print_big_message message).
Proof.
  intros st. rewrite print_big_message_run. split; [reflexivity|].
  unfold events, prompts. cbn [snd].
  induction (big_message_text message) as [|t l IH]; [reflexivity | exact IH].
Qed.

Ltac silent_step :=
  lazymatch goal with
  | |- silent (mret _) => apply silent_ret
  | |- silent (raise _) => apply silent_raise
  | |- silent (sys_exit _) => apply silent_sys_exit
  | |- silent (print _) => apply silent_print
  | |- silent (emit (Run _)) => apply silent_emit_run
  | |- silent get_machine => apply silent_get_machine
  | |- silent (put_machine _) => apply silent_put_machine
  | |- silent (print_big_message _) => apply silent_print_big_message
  | |- silent (for_each _ _) => apply silent_for_each; intros ?
  | |- silent (_ ≫= _) => apply silent_bind; [|intros ?]
  | |- silent (if ?c then _ else _) => destruct c
  | |- silent (match ?x with _ => _ end) => destruct x
  end.

Lemma silent_run_cmd h (cmd : string) (assert_success environment : bool) :
  silent (run_cmd h cmd assert_success environment).
Proof. unfold run_cmd. cbv zeta. repeat silent_step. Qed.

Lemma silent_dict_get {V} (d : gmap string V) (k : string) : silent (dict_get d k).
Proof. unfold dict_get. repeat silent_step. Qed.

Lemma silent_read_file h (p : string) : silent (read_file h p).
Proof. unfold read_file. repeat silent_step. Qed.

Lemma silent_write_file h (p content : string) : silent (write_file h p content).
Proof. unfold write_file. repeat silent_step. Qed.

Lemma silent_remove_file h (p : string) : silent (remove_file h p).
Proof. unfold remove_file. repeat silent_step. Qed.

Lemma silent_mkdir h (p : string) : silent (mkdir h p).
Proof. unfold mkdir. repeat silent_step. Qed.

Lemma silent_listdir h (p : string) : silent (listdir h p).
Proof. unfold listdir. repeat silent_step. Qed.

Ltac prove_silent :=
  repeat lazymatch goal with
  | |- silent (run_cmd _ _ _ _) => apply silent_run_cmd
  | |- silent (dict_get _ _) => apply silent_dict_get
  | |- silent (read_file _ _) => apply silent_read_file
  | |- silent (write_file _ _ _) => apply silent_write_file
  | |- silent (remove_file _ _) => apply silent_remove_file
  | |- silent (mkdir _ _) => apply silent_mkdir
  | |- silent (listdir _ _) => apply silent_listdir
  | |- _ => silent_step
  end.

Lemma silent_torch_version h : silent (torch_version h).
Proof.
  unfold torch_version. cbv zeta.
  destruct (List.find _ (getsitepackages h)) as [[|c p]|]; prove_silent.
Qed.

Lemma silent_install_extensions h : silent (install_extensions h).
Proof. unfold install_extensions. cbv zeta. prove_silent. Qed.

Lemma silent_clear_cache h : silent (clear_cache h).
Proof. unfold clear_cache. prove_silent. Qed.

Lemma silent_install_requirements h (b : bool) : silent (install_requirements h b).
Proof.
  unfold install_requirements. cbv zeta.
  repeat lazymatch goal with
  | |- silent (torch_version _) => apply silent_torch_version
  | |- silent (install_extensions _) => apply silent_install_extensions
  | |- silent (clear_cache _) => apply silent_clear_cache
  | |- _ => progress prove_silent
  end.
Qed.

Lemma silent_check_hashes (before after : gmap string string) :
  silent (check_hashes before after).
Proof. unfold check_hashes. prove_silent. Qed.

Lemma silent_update_requirements sha h (b : bool) :
  silent (update_requirements sha h b).
Proof.
  unfold update_requirements, create_git_directory, pull_and_check. cbv zeta.
  repeat lazymatch goal with
  | |- silent (install_requirements _ _) => apply silent_install_requirements
  | |- silent (check_hashes _ _) => apply silent_check_hashes
  | |- _ => progress prove_silent
  end.
Qed.

(** X19: [update_requirements] is not interactive.  Whatever the host, the
    machine and the way the run ends, the script reads no line from standard
    input and writes no prompt on the way. *)
Theorem update_never_reads_standard_input sha h (b : bool) (st : pstate) :
  stdin (final (update_requirements sha h b st)) = stdin st
  /\ prompts (events (update_requirements sha h b st)) = 0.
Proof. apply silent_update_requirements. Qed.

Lemma silent_choose_pytorch h (selected_gpu : string) :
  is_Some (environ h !! "USE_CUDA118") \/ is_windows h || is_linux h = false ->
  silent (choose_pytorch h selected_gpu).
Proof.
  intros Hq. unfold choose_pytorch. cbv zeta.
  destruct ((is_windows h || is_linux h) && String.eqb selected_gpu "NVIDIA") eqn:E.
  - destruct Hq as [[v Hv]|Hos].
    + unfold ask_use_cuda118. rewrite Hv. prove_silent.
    + rewrite Hos in E. discriminate.
  - prove_silent.
Qed.

(** X20: the installation can run unattended.  When [GPU_CHOICE] is set,
    and [USE_CUDA118] is set or the host is neither Windows nor Linux,
    [install_webui] reads no line from standard input and writes no prompt,
    however the run ends. *)
Theorem unattended_installation_reads_no_input sha h (g : string) (st : pstate) :
  environ h !! "GPU_CHOICE" = Some g ->
  is_Some (environ h !! "USE_CUDA118") \/ is_windows h || is_linux h = false ->
  stdin (final (install_webui sha h st)) = stdin st
  /\ prompts (events (install_webui sha h st)) = 0.
Proof.
  intros Hg Hq. revert st. change (silent (install_webui sha h)).
  unfold install_webui, ask_gpu_choice. rewrite Hg. cbv zeta.
  apply silent_bind; [prove_silent|intros choice].
  apply silent_bind; [prove_silent|intros selected_gpu].
  unfold install_for.
  repeat lazymatch goal with
  | |- silent (update_requirements _ _ _) => apply silent_update_requirements
  | |- silent (choose_pytorch _ _) => apply silent_choose_pytorch; exact Hq
  | |- _ => progress prove_silent
  end.
Qed.

(** X20, witness: Linux with [GPU_CHOICE=A] and [USE_CUDA118=N], and a line
    waiting on standard input. *)
Lemma unattended_installation_reads_no_input_witness :
  stdin (final (install_webui Sample.sha256_of_empty
                  (Sample.unix_host "linux"
                     {[ "GPU_CHOICE" := "A"; "USE_CUDA118" := "N" ]}
                     Sample.quiet_shell)
                  (PState Sample.cuda_machine ["y"])))
  = ["y"]
  /\ prompts (events (install_webui Sample.sha256_of_empty
                        (Sample.unix_host "linux"
                           {[ "GPU_CHOICE" := "A"; "USE_CUDA118" := "N" ]}
                           Sample.quiet_shell)
                        (PState Sample.cuda_machine ["y"])))
     = 0.
Proof.
  apply (unattended_installation_reads_no_input Sample.sha256_of_empty
           (Sample.unix_host "linux"
              {[ "GPU_CHOICE" := "A"; "USE_CUDA118" := "N" ]}
              Sample.quiet_shell)
           "A" (PState Sample.cuda_machine ["y"])).
  - vm_compute. reflexivity.
  - left. exists "N". vm_compute. reflexivity.
Defined.
